(** * The OFIQ build orchestrator ([scripts/build_ofiq.py])

    A shallow embedding of the [OFIQBuilder] class: its attributes are a
    record, its methods are computations in a small monad that threads the
    builder object and the outside world, collects what the script prints
    and which operating-system services it calls, and distinguishes normal
    return, [sys.exit] and a raised exception.

    The outside world (subprocesses, the file system, the platform name) is
    an oracle: the theorems hold for every world type and every oracle. *)

From Stdlib Require Import String Ascii List ZArith Bool Lia DecimalString.
Import ListNotations.
Local Open Scope string_scope.
Local Open Scope Z_scope.

(** ** Python values as text *)

Module Py.

(** [str(n)] for an [int]. *)
Definition str_of_int (n : Z) : string :=
  NilZero.string_of_int (Z.to_int n).

(** [str(b)] for a [bool]. *)
Definition str_of_bool (b : bool) : string :=
  if b then "True" else "False".

(** [sep.join(l)]. *)
Definition join (sep : string) (l : list string) : string :=
  String.concat sep l.

(** The ASCII characters [str.split()] and [str.strip()] treat as blanks:
    the space, the controls 9 to 13 and the separators 28 to 31. *)
Definition is_space (c : ascii) : bool :=
  let n := nat_of_ascii c in
  orb (Nat.eqb n 32)
      (orb (andb (Nat.leb 9 n) (Nat.leb n 13))
           (andb (Nat.leb 28 n) (Nat.leb n 31))).

(** [s.split()]: the maximal runs of non-blank characters.  [cur] is the
    word being read, most recent character first. *)
Fixpoint split_aux (cur : list ascii) (s : string) : list string :=
  let flush (rest : list string) :=
    match cur with
    | [] => rest
    | _ :: _ => string_of_list_ascii (rev cur) :: rest
    end in
  match s with
  | EmptyString => flush []
  | String c s' =>
      if is_space c then flush (split_aux [] s')
      else split_aux (c :: cur) s'
  end.

Definition split (s : string) : list string := split_aux [] s.

(** Truthiness of a [str] and of a [list]. *)
Definition truthy (s : string) : bool :=
  match s with EmptyString => false | String _ _ => true end.

Definition nonempty {A} (l : list A) : bool :=
  match l with [] => false | _ :: _ => true end.

(** The format specification [{n:,}]: decimal digits grouped by three. *)
Fixpoint group3 (digits_rev : list ascii) : list ascii :=
  match digits_rev with
  | a :: b :: c :: ((_ :: _) as rest) => a :: b :: c :: ","%char :: group3 rest
  | l => l
  end.

Definition format_thousands (n : Z) : string :=
  let body :=
    string_of_list_ascii
      (rev (group3 (rev (list_ascii_of_string (str_of_int (Z.abs n)))))) in
  if n <? 0 then "-" ++ body else body.

(** [repr] of a list of file names, for names that need no escaping. *)
Definition repr_list (l : list string) : string :=
  "[" ++ join ", " (map (fun s => "'" ++ s ++ "'") l) ++ "]".

End Py.

(** ** Paths *)

Definition path := string.

(** [p / name] of [pathlib]; the separator is written [/]. *)
Definition pjoin (p : path) (name : string) : path := p ++ "/" ++ name.

Notation "p </> q" := (pjoin p q) (at level 40, left associativity).

(** ** Exceptions, outcomes and observable events *)

(** The exceptions the script distinguishes.  Each carries its [str()].
    [KeyboardInterrupt] is not a subclass of [Exception]. *)
Inductive exn : Type :=
| CalledProcessError (msg : string)
| FileNotFoundError (msg : string)
| AttributeError (msg : string)
| OtherException (msg : string)
| KeyboardInterrupt.

Definition exn_str (e : exn) : string :=
  match e with
  | CalledProcessError m | FileNotFoundError m
  | AttributeError m | OtherException m => m
  | KeyboardInterrupt => ""
  end.

(** How a method call ends.  [sys.exit(c)] raises [SystemExit], which no
    handler of the script catches, so it is kept apart from [Raised]. *)
Inductive outcome (A : Type) : Type :=
| Normal (a : A)
| SystemExit (code : Z)
| Raised (e : exn).
Arguments Normal {A} a.
Arguments SystemExit {A} code.
Arguments Raised {A} e.

(** The status the interpreter reports to the operating system. *)
Definition exit_status {A} (o : outcome A) : Z :=
  match o with
  | Normal _ => 0
  | SystemExit c => c
  | Raised _ => 1
  end.

(** What a run does that can be seen from outside, in order. *)
Inductive event : Type :=
| EPrint (line : string)
| ESpawn (cmd : list string) (cwd : option path) (shell : bool)
         (res : exn + string)
| EExists (p : path) (res : bool)
| ERmtree (p : path)
| EMkdir (p : path)
| EIterdir (p : path)
| EStat (p : path).

(** ** The builder object *)

Record OFIQBuilder : Type := mkBuilder {
  root_dir : path;
  script_dir : path;
  build_dir : path;
  install_dir : string;
  architecture : string;
  compiler_version : Z;
  use_conan : bool;
  download : bool;
  config : string;
  vs_version : string;
  generator : string;
  compiler_flags : string;
  conan_set_arch : string;
  onnxruntime_flags : string;
  set_architecture : string;
  (* attributes that [__init__] does not create *)
  skip_deps : option bool;
  conan_path : option string
}.

(** [OFIQBuilder.__init__]; [file_parent] is [Path(__file__).parent] and
    [file_parent_parent] its parent. *)
Definition init (file_parent_parent file_parent : path) : OFIQBuilder :=
  {| root_dir := file_parent_parent;
     script_dir := file_parent;
     build_dir := file_parent_parent </> "build" </> "build_win";
     install_dir := "install_x86_64";
     architecture := "x64";
     compiler_version := 16;
     use_conan := true;
     download := true;
     config := "Release";
     vs_version := "vc16";
     generator := "Visual Studio 16 2019";
     compiler_flags := "";
     conan_set_arch := "";
     onnxruntime_flags := "";
     set_architecture := "-A x64";
     skip_deps := None;
     conan_path := None |}.

(** Attribute assignment: [self.field = v]. *)
Definition set_install_dir v (b : OFIQBuilder) : OFIQBuilder :=
  match b with
  | mkBuilder rd sd bd _ ar cv uc dl cf vs gen cfl csa orf sa skp cp =>
      mkBuilder rd sd bd v ar cv uc dl cf vs gen cfl csa orf sa skp cp
  end.
Definition set_architecture_attr v (b : OFIQBuilder) : OFIQBuilder :=
  match b with
  | mkBuilder rd sd bd ins _ cv uc dl cf vs gen cfl csa orf sa skp cp =>
      mkBuilder rd sd bd ins v cv uc dl cf vs gen cfl csa orf sa skp cp
  end.
Definition set_compiler_version v (b : OFIQBuilder) : OFIQBuilder :=
  match b with
  | mkBuilder rd sd bd ins ar _ uc dl cf vs gen cfl csa orf sa skp cp =>
      mkBuilder rd sd bd ins ar v uc dl cf vs gen cfl csa orf sa skp cp
  end.
Definition set_use_conan v (b : OFIQBuilder) : OFIQBuilder :=
  match b with
  | mkBuilder rd sd bd ins ar cv _ dl cf vs gen cfl csa orf sa skp cp =>
      mkBuilder rd sd bd ins ar cv v dl cf vs gen cfl csa orf sa skp cp
  end.
Definition set_download v (b : OFIQBuilder) : OFIQBuilder :=
  match b with
  | mkBuilder rd sd bd ins ar cv uc _ cf vs gen cfl csa orf sa skp cp =>
      mkBuilder rd sd bd ins ar cv uc v cf vs gen cfl csa orf sa skp cp
  end.
Definition set_config v (b : OFIQBuilder) : OFIQBuilder :=
  match b with
  | mkBuilder rd sd bd ins ar cv uc dl _ vs gen cfl csa orf sa skp cp =>
      mkBuilder rd sd bd ins ar cv uc dl v vs gen cfl csa orf sa skp cp
  end.
Definition set_vs_version v (b : OFIQBuilder) : OFIQBuilder :=
  match b with
  | mkBuilder rd sd bd ins ar cv uc dl cf _ gen cfl csa orf sa skp cp =>
      mkBuilder rd sd bd ins ar cv uc dl cf v gen cfl csa orf sa skp cp
  end.
Definition set_generator v (b : OFIQBuilder) : OFIQBuilder :=
  match b with
  | mkBuilder rd sd bd ins ar cv uc dl cf vs _ cfl csa orf sa skp cp =>
      mkBuilder rd sd bd ins ar cv uc dl cf vs v cfl csa orf sa skp cp
  end.
Definition set_compiler_flags v (b : OFIQBuilder) : OFIQBuilder :=
  match b with
  | mkBuilder rd sd bd ins ar cv uc dl cf vs gen _ csa orf sa skp cp =>
      mkBuilder rd sd bd ins ar cv uc dl cf vs gen v csa orf sa skp cp
  end.
Definition set_conan_set_arch v (b : OFIQBuilder) : OFIQBuilder :=
  match b with
  | mkBuilder rd sd bd ins ar cv uc dl cf vs gen cfl _ orf sa skp cp =>
      mkBuilder rd sd bd ins ar cv uc dl cf vs gen cfl v orf sa skp cp
  end.
Definition set_onnxruntime_flags v (b : OFIQBuilder) : OFIQBuilder :=
  match b with
  | mkBuilder rd sd bd ins ar cv uc dl cf vs gen cfl csa _ sa skp cp =>
      mkBuilder rd sd bd ins ar cv uc dl cf vs gen cfl csa v sa skp cp
  end.
Definition set_set_architecture v (b : OFIQBuilder) : OFIQBuilder :=
  match b with
  | mkBuilder rd sd bd ins ar cv uc dl cf vs gen cfl csa orf _ skp cp =>
      mkBuilder rd sd bd ins ar cv uc dl cf vs gen cfl csa orf v skp cp
  end.
Definition set_skip_deps v (b : OFIQBuilder) : OFIQBuilder :=
  match b with
  | mkBuilder rd sd bd ins ar cv uc dl cf vs gen cfl csa orf sa _ cp =>
      mkBuilder rd sd bd ins ar cv uc dl cf vs gen cfl csa orf sa (Some v) cp
  end.
Definition set_conan_path v (b : OFIQBuilder) : OFIQBuilder :=
  match b with
  | mkBuilder rd sd bd ins ar cv uc dl cf vs gen cfl csa orf sa skp _ =>
      mkBuilder rd sd bd ins ar cv uc dl cf vs gen cfl csa orf sa skp (Some v)
  end.

(** ** The command line after [argparse] *)

Module Args.
(** The [Namespace] that [parser.parse_args()] returns. *)
Record t : Type := mk {
  arch : string;
  compiler : Z;
  debug : bool;
  no_conan : bool;
  no_download : bool;
  skip_deps : bool
}.

(** The values given in the parser's [default=] and [store_true]. *)
Definition defaults : t := mk "x64" 16 false false false false.

Definition arch_choices : list string := ["x64"; "x86"].
Definition compiler_choices : list Z := [16; 17].

(** The [choices=] test of the two options that carry a value. *)
Definition valid (a : t) : bool :=
  existsb (String.eqb (arch a)) arch_choices
  && existsb (Z.eqb (compiler a)) compiler_choices.
End Args.

(** More Python text operations used by the prerequisite check. *)
Module PyText.

Fixpoint lstrip (s : string) : string :=
  match s with
  | EmptyString => EmptyString
  | String c s' => if Py.is_space c then lstrip s' else s
  end.

(** [s.rstrip()]: a blank is kept only when something non-blank follows. *)
Fixpoint rstrip (s : string) : string :=
  match s with
  | EmptyString => EmptyString
  | String c s' =>
      match rstrip s' with
      | EmptyString => if Py.is_space c then EmptyString
                       else String c EmptyString
      | r => String c r
      end
  end.

(** [s.strip()]. *)
Definition strip (s : string) : string := rstrip (lstrip s).

(** [s.split('\n')[0]]: the text before the first line feed. *)
Fixpoint first_line (s : string) : string :=
  match s with
  | EmptyString => EmptyString
  | String c s' =>
      if Ascii.eqb c "010"%char then EmptyString
      else String c (first_line s')
  end.

(** The line feed written [\n] in the script. *)
Definition nl : string := String "010" EmptyString.

(** [s * n]. *)
Fixpoint repeat_str (s : string) (n : nat) : string :=
  match n with
  | O => EmptyString
  | S n' => s ++ repeat_str s n'
  end.

End PyText.

(** ** The outside world *)

(** The services the script asks of the operating system, over an arbitrary
    world state [W].  A subprocess may change the world and ends with its
    captured standard output or with the exception [subprocess.run(...,
    check=True)] raises; the other services may raise as well. *)
Record Env (W : Type) : Type := mkEnv {
  platform_system : string;
  os_spawn : list string -> option path -> bool -> W -> (exn + string) * W;
  os_exists : path -> W -> bool;
  os_rmtree : path -> W -> option exn * W;
  os_mkdir : path -> W -> option exn * W;
  os_iterdir : path -> W -> exn + list string;
  os_stat_size : path -> W -> exn + Z
}.
Arguments platform_system {W} _.
Arguments os_spawn {W} _ _ _ _ _.
Arguments os_exists {W} _ _ _.
Arguments os_rmtree {W} _ _ _.
Arguments os_mkdir {W} _ _ _.
Arguments os_iterdir {W} _ _ _.
Arguments os_stat_size {W} _ _ _.

(** ** The monad of method bodies *)

Record result (W A : Type) : Type := mkResult {
  res_outcome : outcome A;
  res_self : OFIQBuilder;
  res_world : W;
  res_events : list event
}.
Arguments mkResult {W A} _ _ _ _.
Arguments res_outcome {W A} _.
Arguments res_self {W A} _.
Arguments res_world {W A} _.
Arguments res_events {W A} _.

Definition M (W A : Type) : Type := OFIQBuilder -> W -> result W A.

Definition ret {W A} (a : A) : M W A :=
  fun b w => mkResult (Normal a) b w [].

(** [prepend evs r]: the events [evs] happened before those of [r]. *)
Definition prepend {W A} (evs : list event) (r : result W A) : result W A :=
  match r with
  | mkResult o b w evs' => mkResult o b w (evs ++ evs')
  end.

Definition bind {W A B} (m : M W A) (k : A -> M W B) : M W B :=
  fun b w =>
    match m b w with
    | mkResult (Normal a) b' w' evs => prepend evs (k a b' w')
    | mkResult (SystemExit c) b' w' evs => mkResult (SystemExit c) b' w' evs
    | mkResult (Raised e) b' w' evs => mkResult (Raised e) b' w' evs
    end.

Declare Scope py_scope.
Delimit Scope py_scope with py.
Notation "x <- m ;; k" := (bind m (fun x => k))
  (at level 100, m at next level, right associativity) : py_scope.
Notation "m ;; k" := (bind m (fun _ => k))
  (at level 100, right associativity) : py_scope.
Local Open Scope py_scope.

(** [raise e] and [sys.exit(c)]. *)
Definition raise {W A} (e : exn) : M W A :=
  fun b w => mkResult (Raised e) b w [].
Definition sys_exit {W A} (c : Z) : M W A :=
  fun b w => mkResult (SystemExit c) b w [].

(** Reading and assigning attributes of [self]. *)
Definition attr {W A} (f : OFIQBuilder -> A) : M W A :=
  fun b w => mkResult (Normal (f b)) b w [].
Definition assign {W} (f : OFIQBuilder -> OFIQBuilder) : M W unit :=
  fun b w => mkResult (Normal tt) (f b) w [].

(** An attribute that may not exist yet. *)
Definition attr_opt {W A} (name : string) (f : OFIQBuilder -> option A)
  : M W A :=
  fun b w =>
    match f b with
    | Some v => mkResult (Normal v) b w []
    | None =>
        mkResult
          (Raised (AttributeError
             ("'OFIQBuilder' object has no attribute '" ++ name ++ "'")))
          b w []
    end.

Definition print {W} (line : string) : M W unit :=
  fun b w => mkResult (Normal tt) b w [EPrint line].

(** [try: body  except ...: handler]; [handler e] is [None] when no
    [except] clause matches [e].  [SystemExit] passes through. *)
Definition try_except {W A} (body : M W A) (handler : exn -> option (M W A))
  : M W A :=
  fun b w =>
    match body b w with
    | mkResult (Raised e) b' w' evs =>
        match handler e with
        | Some h => prepend evs (h b' w')
        | None => mkResult (Raised e) b' w' evs
        end
    | r => r
    end.

(** [except (subprocess.CalledProcessError, FileNotFoundError)]. *)
Definition except_called_or_not_found {W A} (h : M W A)
  : exn -> option (M W A) :=
  fun e =>
    match e with
    | CalledProcessError _ | FileNotFoundError _ => Some h
    | _ => None
    end.

(** [except subprocess.CalledProcessError as e]. *)
Definition except_called {W A} (h : exn -> M W A) : exn -> option (M W A) :=
  fun e =>
    match e with
    | CalledProcessError _ => Some (h e)
    | _ => None
    end.

Section Services.
Context {W : Type} (env : Env W).

(** [subprocess.run(cmd, check=True, cwd=cwd, shell=shell)]; the value is
    the captured standard output. *)
Definition subprocess_run (cmd : list string) (cwd : option path)
           (shell : bool) : M W string :=
  fun b w =>
    let '(r, w') := os_spawn env cmd cwd shell w in
    mkResult (match r with inl e => Raised e | inr out => Normal out end)
             b w' [ESpawn cmd cwd shell r].

(** [Path(p).exists()]. *)
Definition path_exists (p : path) : M W bool :=
  fun b w =>
    let r := os_exists env p w in
    mkResult (Normal r) b w [EExists p r].

(** [shutil.rmtree(p)]. *)
Definition rmtree (p : path) : M W unit :=
  fun b w =>
    let '(r, w') := os_rmtree env p w in
    mkResult (match r with Some e => Raised e | None => Normal tt end)
             b w' [ERmtree p].

(** [p.mkdir(parents=True, exist_ok=True)]. *)
Definition mkdir (p : path) : M W unit :=
  fun b w =>
    let '(r, w') := os_mkdir env p w in
    mkResult (match r with Some e => Raised e | None => Normal tt end)
             b w' [EMkdir p].

(** [[f.name for f in p.iterdir()]]. *)
Definition iterdir_names (p : path) : M W (list string) :=
  fun b w =>
    mkResult (match os_iterdir env p w with
              | inl e => Raised e
              | inr l => Normal l
              end) b w [EIterdir p].

(** [p.stat().st_size]. *)
Definition stat_size (p : path) : M W Z :=
  fun b w =>
    mkResult (match os_stat_size env p w with
              | inl e => Raised e
              | inr n => Normal n
              end) b w [EStat p].

End Services.

(** ** The methods of [OFIQBuilder] *)

Section Methods.
Context {W : Type} (env : Env W).

(** [parser.parse_args()]: a value outside [choices] ends the process
    with the usage error of [argparse], status 2. *)
Definition parser_parse_args (cmdline : Args.t) : M W Args.t :=
  if Args.valid cmdline then ret cmdline else sys_exit 2.

Definition parse_arguments (cmdline : Args.t) : M W Args.t :=
  args <- parser_parse_args cmdline ;;
  assign (set_architecture_attr (Args.arch args)) ;;
  assign (set_compiler_version (Args.compiler args)) ;;
  assign (set_config (if Args.debug args then "Debug" else "Release")) ;;
  assign (set_use_conan (negb (Args.no_conan args))) ;;
  assign (set_download (negb (Args.no_download args))) ;;
  assign (set_skip_deps (Args.skip_deps args)) ;;
  ret args.

Definition setup_environment : M W unit :=
  self <- attr id ;;
  print "Setting up build environment:" ;;
  print ("  Architecture: " ++ architecture self) ;;
  print ("  Compiler: Visual Studio "
         ++ Py.str_of_int (compiler_version self)) ;;
  print ("  Configuration: " ++ config self) ;;
  print ("  Use Conan: " ++ Py.str_of_bool (use_conan self)) ;;
  print ("  Download: " ++ Py.str_of_bool (download self)) ;;
  (* Architecture settings *)
  (if (architecture self =? "x86")%string then
     assign (set_conan_set_arch "-s:a arch=x86") ;;
     assign (set_install_dir "install_x86") ;;
     assign (set_onnxruntime_flags "--x86") ;;
     assign (set_set_architecture "-A Win32")
   else
     assign (set_conan_set_arch "") ;;
     assign (set_install_dir "install_x86_64") ;;
     assign (set_onnxruntime_flags "") ;;
     assign (set_set_architecture "-A x64")) ;;
  (* Compiler settings *)
  (if compiler_version self =? 16 then
     assign (set_generator "Visual Studio 16 2019") ;;
     assign (set_compiler_flags "") ;;
     assign (set_vs_version "vc16")
   else
     assign (set_generator "Visual Studio 17 2022") ;;
     assign (set_compiler_flags "-s:a compiler.version=193") ;;
     assign (set_vs_version "vc17")).

(** The fallback install locations of the package manager, in order. *)
Definition conan_paths : list path :=
  [ "C:\tools\conan-2.21.0-windows-x86_64\conan.exe";
    "C:\Program Files\Conan\conan.exe";
    "C:\conan\conan.exe" ].

(** The [for conan_path in conan_paths] loop; the value is
    [conan_found]. *)
Fixpoint conan_fallback_loop (paths : list path) : M W bool :=
  match paths with
  | [] => ret false
  | conan_path :: rest =>
      present <- path_exists env conan_path ;;
      if present then
        assign (set_conan_path conan_path) ;;
        found <-
          try_except
            (stdout <- subprocess_run env [conan_path; "--version"]
                                      None false ;;
             print ("  ✓ conan: " ++ PyText.strip stdout
                    ++ " (found at " ++ conan_path ++ ")") ;;
             ret true)
            (except_called_or_not_found (ret false)) ;;
        if found then ret true (* break *)
        else conan_fallback_loop rest (* continue *)
      else conan_fallback_loop rest
  end.

(** The [if self.use_conan:] block of [check_prerequisites]. *)
Definition check_conan : M W unit :=
  try_except
    (stdout <- subprocess_run env ["conan"; "--version"] None false ;;
     print ("  ✓ conan: " ++ PyText.strip stdout) ;;
     assign (set_conan_path "conan"))
    (except_called_or_not_found
       (conan_found <- conan_fallback_loop conan_paths ;;
        if negb conan_found then
          print "  ✗ conan: Not found in PATH or common locations" ;;
          print ("  Please ensure conan is installed and available in "
                 ++ "PATH, or specify the path manually") ;;
          sys_exit 1
        else ret tt)).

(** The [for tool in required_tools] loop; the value is
    [missing_tools]. *)
Fixpoint check_tools (tools : list string) (missing_tools : list string)
  : M W (list string) :=
  match tools with
  | [] => ret missing_tools
  | tool :: rest =>
      missing_tools' <-
        try_except
          (stdout <- subprocess_run env [tool; "--version"] None false ;;
           print ("  ✓ " ++ tool ++ ": " ++ PyText.first_line stdout) ;;
           ret missing_tools)
          (except_called_or_not_found
             (print ("  ✗ " ++ tool ++ ": Not found") ;;
              ret (missing_tools ++ [tool])%list)) ;;
      check_tools rest missing_tools'
  end.

Definition required_tools : list string := ["cmake"].

(** [check_prerequisites] up to the fatal exit for missing tools. *)
Definition probe_tools : M W unit :=
  print "Checking prerequisites..." ;;
  conan <- attr use_conan ;;
  (if conan then check_conan else ret tt) ;;
  missing_tools <- check_tools required_tools [] ;;
  (if Py.nonempty missing_tools then
     print (PyText.nl ++ "Error: Missing required tools: "
            ++ Py.join ", " missing_tools) ;;
     print "Please install the missing tools and try again." ;;
     sys_exit 1
   else ret tt).

Definition platform_warning : string :=
  PyText.nl ++ "Warning: This script is designed for Windows. "
  ++ "Building on other platforms may not work correctly.".

Definition check_prerequisites : M W unit :=
  probe_tools ;;
  (* Check if we're on Windows *)
  (if negb (platform_system env =? "Windows")%string then
     print platform_warning
   else ret tt) ;;
  print "✓ All prerequisites satisfied".

(** The package-manager command line of [_build_with_conan]. *)
Definition conan_profile_file (self : OFIQBuilder) : string :=
  if (config self =? "Release")%string then "conan_profile_release.txt"
  else "conan_profile_debug.txt".

Definition conan_cmd (self : OFIQBuilder) (conan : string) : list string :=
  let profile_path := root_dir self </> "conan" </> conan_profile_file self in
  let cmd :=
    [ conan; "install"; root_dir self </> "conan" </> "conanfile.txt";
      "--build"; "missing";
      "--profile:build"; profile_path;
      "--profile:host"; profile_path;
      "--output-folder=" ++ (root_dir self </> "build" </> "conan") ] in
  (* Add compiler and architecture flags *)
  let cmd :=
    if Py.truthy (compiler_flags self)
    then (cmd ++ Py.split (compiler_flags self))%list else cmd in
  let cmd :=
    if Py.truthy (conan_set_arch self)
    then (cmd ++ Py.split (conan_set_arch self))%list else cmd in
  cmd.

Definition _build_with_conan : M W unit :=
  self <- attr id ;;
  let conan_dir := root_dir self </> "build" </> "conan" in
  (* Clean conan directory *)
  cached <- path_exists env conan_dir ;;
  (if cached then
     print "  Cleaning Conan cache..." ;;
     rmtree env conan_dir
   else ret tt) ;;
  conan <- attr_opt "conan_path" conan_path ;;
  let cmd := conan_cmd self conan in
  print ("  Running: " ++ Py.join " " cmd) ;;
  try_except
    (subprocess_run env cmd (Some (root_dir self)) false ;;
     print "  ✓ Conan dependencies built successfully")
    (except_called
       (fun e =>
          print ("  ✗ Conan build failed: " ++ exn_str e) ;;
          sys_exit 1)).

(** The dependency trees of [_build_from_source]. *)
Definition opencv_dir (self : OFIQBuilder) : path :=
  root_dir self </> "extern" </> "opencv-4.5.5".
Definition gtest_dir (self : OFIQBuilder) : path :=
  root_dir self </> "extern" </> "googletest".
Definition onnx_dir (self : OFIQBuilder) : path :=
  root_dir self </> "extern" </> "onnxruntime".
Definition onnx_prebuilt (self : OFIQBuilder) : path :=
  root_dir self </> "extern" </> "onnxruntime-win-x64-1.17.3".

(** The five command lines of [_build_from_source]. *)
Definition opencv_configure_cmd (self : OFIQBuilder) : list string :=
  [ "cmake"; "-S"; "."; "-G"; generator self; set_architecture self;
    "-B"; "build";
    "-DBUILD_LIST=core,calib3d,imgcodecs,improc,dnn,ml";
    "-DBUILD_opencv_apps=OFF";
    "-DBUILD_opencv_java=OFF"; "-DBUILD_opencv_python=OFF";
    "-DWITH_FFMPEG=OFF"; "-DWITH_TIFF=OFF";
    "-DWITH_WEBP=OFF"; "-DBUILD_IPP=OFF"; "-DWITH_IPP=OFF";
    "-DWITH_OPENCL=OFF"; "-DWITH_LAPACK=OFF"; "-DWITH_QUIRC=OFF";
    "-DBUILD_ZLIB=ON"; "-DWITH_ZLIB=ON";
    "-DBUILD_PNG=ON"; "-DWITH_PNG=ON";
    "-DBUILD_JPEG=ON"; "-DWITH_JPEG=ON";
    "-DBUILD_OPENEXR=OFF"; "-DWITH_OPENEXR=OFF";
    "-DBUILD_SHARED_LIBS=OFF"; "-DBUILD_WITH_STATIC_CRT=OFF";
    "-DWITH_ADE=OFF"; "-DCMAKE_INSTALL_PREFIX=./build/install" ].

Definition opencv_build_cmd (self : OFIQBuilder) : list string :=
  [ "cmake"; "--build"; "build"; "--config"; config self;
    "--target"; "install"; "-j"; "8" ].

Definition gtest_configure_cmd (self : OFIQBuilder) : list string :=
  [ "cmake"; "-S"; "."; "-G"; generator self; set_architecture self;
    "-B"; "build";
    "-DBUILD_GMOCK=OFF"; "-DINSTALL_GTEST=OFF"; "-DBUILD_SHARED_LIBS=ON" ].

Definition gtest_build_cmd (self : OFIQBuilder) : list string :=
  [ "cmake"; "--build"; "build/googletest"; "--config"; config self ].

Definition onnx_build_cmd (self : OFIQBuilder) : list string :=
  let cmd :=
    [ "build.bat"; "--config"; config self; "--build_shared_lib";
      "--parallel";
      "--compile_no_warning_as_error"; "--skip_submodule_sync";
      "--cmake_generator"; "Visual Studio 17 2022"; "--update";
      "--build" ] in
  if Py.truthy (onnxruntime_flags self)
  then (cmd ++ [onnxruntime_flags self])%list else cmd.

(** [', '.join(l) if l else 'None']. *)
Definition join_or_none (l : list string) : string :=
  if Py.nonempty l then Py.join ", " l else "None".

(** [_build_from_source], first part: which trees are there, and the
    fatal exit when one is missing. *)
Definition source_trees_check (self : OFIQBuilder) : M W unit :=
  print "  Building dependencies from source..." ;;
  (* Check what dependencies we have available *)
  let available_deps : list string := [] in
  let missing_deps : list string := [] in
  opencv_present <- path_exists env (opencv_dir self) ;;
  let '(available_deps, missing_deps) :=
    if opencv_present then ((available_deps ++ ["OpenCV"])%list, missing_deps)
    else (available_deps, (missing_deps ++ ["OpenCV"])%list) in
  gtest_present <- path_exists env (gtest_dir self) ;;
  let '(available_deps, missing_deps) :=
    if gtest_present
    then ((available_deps ++ ["GoogleTest"])%list, missing_deps)
    else (available_deps, (missing_deps ++ ["GoogleTest"])%list) in
  onnx_present <-
    (source_tree <- path_exists env (onnx_dir self) ;;
     if source_tree then ret true
     else path_exists env (onnx_prebuilt self)) ;;
  let '(available_deps, missing_deps) :=
    if onnx_present
    then ((available_deps ++ ["ONNX Runtime"])%list, missing_deps)
    else (available_deps, (missing_deps ++ ["ONNX Runtime"])%list) in
  print ("  Available dependencies: " ++ join_or_none available_deps) ;;
  print ("  Missing dependencies: " ++ join_or_none missing_deps) ;;
  (if Py.nonempty missing_deps then
     print (PyText.nl
            ++ "  ❌ Cannot build from source - missing dependencies: "
            ++ Py.join ", " missing_deps) ;;
     print (PyText.nl ++ "  To build from source, you need to:") ;;
     print "  1. Download external dependencies using:" ;;
     print "     cmake -P ../cmake/DownloadExternalSourceCode.cmake" ;;
     print "  2. Or download the full OFIQ release from the ISO portal" ;;
     print "  3. Or use Conan (remove --no-conan flag)" ;;
     print (PyText.nl ++ "  Alternatively, you can try to build with "
            ++ "available dependencies only:") ;;
     print "  (This may work if you only need basic functionality)" ;;
     print "  python build_ofiq.py --no-conan --skip-deps" ;;
     sys_exit 1
   else ret tt) ;;
  print "  ✓ All external dependencies found".

(** Second part: [# Build OpenCV]. *)
Definition build_opencv (self : OFIQBuilder) : M W unit :=
  print "  Building OpenCV..." ;;
  let opencv_build_dir := opencv_dir self </> "build" in
  stale <- path_exists env opencv_build_dir ;;
  (if stale then rmtree env opencv_build_dir else ret tt) ;;
  try_except
    (subprocess_run env (opencv_configure_cmd self)
                    (Some (opencv_dir self)) false ;;
     subprocess_run env (opencv_build_cmd self)
                    (Some (opencv_dir self)) false ;;
     print "  ✓ OpenCV built successfully")
    (except_called
       (fun e =>
          print ("  ✗ OpenCV build failed: " ++ exn_str e) ;;
          sys_exit 1)).

(** Third part: [# Build GoogleTest]. *)
Definition build_googletest (self : OFIQBuilder) : M W unit :=
  print "  Building GoogleTest..." ;;
  try_except
    (subprocess_run env (gtest_configure_cmd self)
                    (Some (gtest_dir self)) false ;;
     subprocess_run env (gtest_build_cmd self)
                    (Some (gtest_dir self)) false ;;
     print "  ✓ GoogleTest built successfully")
    (except_called
       (fun e =>
          print ("  ✗ GoogleTest build failed: " ++ exn_str e) ;;
          sys_exit 1)).

(** Last part: [# Build ONNX Runtime]. *)
Definition build_onnxruntime (self : OFIQBuilder) : M W unit :=
  print "  Building ONNX Runtime..." ;;
  try_except
    (subprocess_run env (onnx_build_cmd self) (Some (onnx_dir self)) true ;;
     print "  ✓ ONNX Runtime built successfully")
    (except_called
       (fun e =>
          print ("  ✗ ONNX Runtime build failed: " ++ exn_str e) ;;
          sys_exit 1)).

Definition _build_from_source : M W unit :=
  self <- attr id ;;
  source_trees_check self ;;
  build_opencv self ;;
  build_googletest self ;;
  build_onnxruntime self.

Definition build_dependencies : M W unit :=
  skip <- attr_opt "skip_deps" skip_deps ;;
  if skip then
    print (PyText.nl
           ++ "Skipping dependency building (--skip-deps specified)") ;;
    print "  Using available dependencies only"
  else
    conan <- attr use_conan ;;
    print (PyText.nl ++ "Building dependencies (Conan: "
           ++ Py.str_of_bool conan ++ ")...") ;;
    if conan then _build_with_conan else _build_from_source.

(** The generator command line of [configure_cmake]. *)
Definition configure_cmd (self : OFIQBuilder) : list string :=
  [ "cmake"; "-S"; "."; "-G"; generator self; set_architecture self;
    "-B"; build_dir self;
    "-DCMAKE_INSTALL_PREFIX=" ++ install_dir self;
    "-DDOWNLOAD_ONNX=" ++ (if use_conan self then "OFF" else "ON");
    "-DUSE_CONAN=" ++ (if use_conan self then "ON" else "OFF");
    "-DOS=windows";
    "-DCMAKE_BUILD_TYPE=" ++ config self;
    "-DARCHITECTURE=" ++ architecture self;
    "-DDOWNLOAD_MODELS_AND_IMAGES="
      ++ (if download self then "ON" else "OFF");
    "-DVS_VERSION=" ++ vs_version self ].

Definition configure_cmake : M W unit :=
  self <- attr id ;;
  print (PyText.nl ++ "Configuring CMake...") ;;
  (* Clean build directory *)
  stale <- path_exists env (build_dir self) ;;
  (if stale then
     print ("  Removing existing build directory: " ++ build_dir self) ;;
     rmtree env (build_dir self)
   else ret tt) ;;
  mkdir env (build_dir self) ;;
  let cmd := configure_cmd self in
  print ("  Running: " ++ Py.join " " cmd) ;;
  try_except
    (subprocess_run env cmd (Some (root_dir self)) false ;;
     print "  ✓ CMake configuration successful")
    (except_called
       (fun e =>
          print ("  ✗ CMake configuration failed: " ++ exn_str e) ;;
          sys_exit 1)).

Definition build_cmd (self : OFIQBuilder) : list string :=
  [ "cmake"; "--build"; build_dir self; "--config"; config self;
    "--target"; "install"; "-j"; "8" ].

Definition build_project : M W unit :=
  self <- attr id ;;
  print (PyText.nl ++ "Building OFIQ project (" ++ config self ++ ")...") ;;
  let cmd := build_cmd self in
  print ("  Running: " ++ Py.join " " cmd) ;;
  try_except
    (subprocess_run env cmd (Some (root_dir self)) false ;;
     print "  ✓ OFIQ build successful")
    (except_called
       (fun e =>
          print ("  ✗ OFIQ build failed: " ++ exn_str e) ;;
          sys_exit 1)).

(** The directory in which [verify_build] looks for the artifacts. *)
Definition install_bin_dir (self : OFIQBuilder) : path :=
  if (config self =? "Debug")%string
  then root_dir self </> install_dir self </> "Debug" </> "bin"
  else root_dir self </> install_dir self </> "Release" </> "bin".

Definition ofiq_lib_path (self : OFIQBuilder) : path :=
  install_bin_dir self </> "ofiq_lib.dll".

Definition sample_app_path (self : OFIQBuilder) : path :=
  install_bin_dir self </> "OFIQSampleApp.exe".

Definition verify_build : M W unit :=
  self <- attr id ;;
  print (PyText.nl ++ "Verifying build...") ;;
  (* Check for ofiq_lib.dll *)
  lib_present <- path_exists env (ofiq_lib_path self) ;;
  (if lib_present then
     print ("  ✓ ofiq_lib.dll found: " ++ ofiq_lib_path self) ;;
     file_size <- stat_size env (ofiq_lib_path self) ;;
     print ("  ✓ File size: " ++ Py.format_thousands file_size ++ " bytes")
   else
     print ("  ✗ ofiq_lib.dll not found at: " ++ ofiq_lib_path self) ;;
     (* Check what files are in the directory *)
     dir_present <- path_exists env (install_bin_dir self) ;;
     (if dir_present then
        files <- iterdir_names env (install_bin_dir self) ;;
        print ("  Files in directory: " ++ Py.repr_list files)
      else ret tt) ;;
     sys_exit 1) ;;
  (* Check for OFIQSampleApp *)
  sample_present <- path_exists env (sample_app_path self) ;;
  (if sample_present then
     print ("  ✓ OFIQSampleApp.exe found: " ++ sample_app_path self)
   else
     print "  ✗ OFIQSampleApp.exe not found") ;;
  print "  ✓ Build verification completed successfully".

(** The body of the [try] in [run]. *)
Definition run_stages (cmdline : Args.t) : M W unit :=
  parse_arguments cmdline ;;
  setup_environment ;;
  check_prerequisites ;;
  build_dependencies ;;
  configure_cmake ;;
  build_project ;;
  verify_build ;;
  self <- attr id ;;
  print (PyText.nl ++ PyText.repeat_str "=" 50) ;;
  print "🎉 BUILD SUCCESSFUL!" ;;
  print ("📁 Output directory: " ++ (root_dir self </> install_dir self)) ;;
  print "📄 Library: ofiq_lib.dll" ;;
  print "🚀 Sample: OFIQSampleApp.exe" ;;
  print (PyText.nl ++ "You can now use the built library in your projects.").

(** The two [except] clauses of [run]: [KeyboardInterrupt], then
    [Exception as e]. *)
Definition run_handlers (e : exn) : option (M W unit) :=
  match e with
  | KeyboardInterrupt =>
      Some (print (PyText.nl ++ PyText.nl ++ "Build interrupted by user") ;;
            sys_exit 1)
  | _ =>
      Some (print (PyText.nl ++ PyText.nl ++ "Build failed with error: "
                   ++ exn_str e) ;;
            sys_exit 1)
  end.

Definition run (cmdline : Args.t) : M W unit :=
  print "OFIQ Python Build Script" ;;
  print (PyText.repeat_str "=" 50) ;;
  try_except (run_stages cmdline) run_handlers.

(** [main()]: a fresh builder, then [run]. *)
Definition main (file_parent_parent file_parent : path)
           (cmdline : Args.t) (w : W) : result W unit :=
  run cmdline (init file_parent_parent file_parent) w.

End Methods.

(** ** A small concrete world, for running the model *)

Module Sim.

(** The world is the list of paths that exist. *)
Definition fs : Type := list path.

Definition present (p : path) (w : fs) : bool :=
  existsb (String.eqb p) w.

(** [remove_tree p w] drops [p] and everything below it. *)
Definition remove_tree (p : path) (w : fs) : fs :=
  filter (fun q => negb (String.eqb p q || String.prefix (p ++ "/") q)) w.

(** The entries directly or indirectly below [p], relative to it. *)
Definition below (p : path) (w : fs) : list string :=
  let n := String.length (p ++ "/") in
  map (fun q => String.substring n (String.length q - n) q)
      (filter (String.prefix (p ++ "/")) w).

(** A machine on which the programs [programs] are on the search path.
    A program that is not installed, or that is started in a directory
    that does not exist, raises [FileNotFoundError]; a program whose
    name is in [failing] returns a non-zero status; a successful command
    with an [install] argument creates the paths [installs]. *)
Definition spawn (programs failing : list string) (installs : list path)
           (cmd : list string) (cwd : option path) (shell : bool) (w : fs)
  : (exn + string) * fs :=
  match cmd with
  | [] => (inl (OtherException "empty command"), w)
  | prog :: args =>
      if negb (existsb (String.eqb prog) programs)
      then (inl (FileNotFoundError ("No such file or directory: " ++ prog)), w)
      else if match cwd with Some d => negb (present d w) | None => false end
      then (inl (FileNotFoundError "No such file or directory"), w)
      else if existsb (String.eqb prog) failing
      then (inl (CalledProcessError
                   ("Command " ++ prog ++ " returned non-zero exit status 1.")),
            w)
      else (inr (prog ++ " version 1.0" ++ PyText.nl),
            if existsb (String.eqb "install") args
            then (w ++ installs)%list else w)
  end.

Definition machine (platform : string) (programs failing : list string)
           (installs : list path) : Env fs :=
  {| platform_system := platform;
     os_spawn := spawn programs failing installs;
     os_exists := present;
     os_rmtree := fun p w => (None, remove_tree p w);
     os_mkdir := fun p w => (None, (w ++ [p])%list);
     os_iterdir := fun p w => inr (below p w);
     os_stat_size := fun _ _ => inr 1234567 |}.

(** The two artifacts of a Release build for x64 below [/ofiq]. *)
Definition release_artifacts : list path :=
  [ "/ofiq/install_x86_64/Release/bin";
    "/ofiq/install_x86_64/Release/bin/ofiq_lib.dll";
    "/ofiq/install_x86_64/Release/bin/OFIQSampleApp.exe" ].

End Sim.

(** ** Observations on results and traces *)

(** The fields that [setup_environment] computes. *)
Record Derived : Type := mkDerived {
  d_generator : string;
  d_install_dir : string;
  d_set_architecture : string;
  d_vs_version : string;
  d_compiler_flags : string;
  d_conan_set_arch : string;
  d_onnxruntime_flags : string
}.

Definition derived_fields (b : OFIQBuilder) : Derived :=
  {| d_generator := generator b;
     d_install_dir := install_dir b;
     d_set_architecture := set_architecture b;
     d_vs_version := vs_version b;
     d_compiler_flags := compiler_flags b;
     d_conan_set_arch := conan_set_arch b;
     d_onnxruntime_flags := onnxruntime_flags b |}.

(** [parse_arguments] followed by [setup_environment], as [run] does. *)
Definition configure_builder {W} (cmdline : Args.t) : M W unit :=
  parse_arguments cmdline ;; setup_environment.

(** Concrete builders and worlds below [/ofiq]. *)
Module Scenario.

Definition fresh : OFIQBuilder := init "/ofiq" "/ofiq/scripts".

(** The builder after [parse_arguments] and [setup_environment]. *)
Definition configured (cmdline : Args.t) : OFIQBuilder :=
  res_self (configure_builder cmdline fresh tt).

(** [--no-conan]. *)
Definition from_source : OFIQBuilder :=
  Eval vm_compute in configured (Args.mk "x64" 16 false true false false).

(** The default command line, [conan] found on the search path. *)
Definition with_conan : OFIQBuilder :=
  Eval vm_compute in set_conan_path "conan" (configured Args.defaults).

Definition trees_all : Sim.fs :=
  [ "/ofiq"; "/ofiq/extern/opencv-4.5.5"; "/ofiq/extern/googletest";
    "/ofiq/extern/onnxruntime" ].

Definition trees_prebuilt_only : Sim.fs :=
  [ "/ofiq"; "/ofiq/extern/opencv-4.5.5"; "/ofiq/extern/googletest";
    "/ofiq/extern/onnxruntime-win-x64-1.17.3" ].

(** A Windows machine with every tool installed and working. *)
Definition windows_pc : Env Sim.fs :=
  Sim.machine "Windows" ["cmake"; "conan"; "build.bat"] []
              Sim.release_artifacts.

(** A machine with no tool at all. *)
Definition bare_pc : Env Sim.fs := Sim.machine "Windows" [] [] [].

End Scenario.

(** The test that fills [missing_deps] in [_build_from_source]: some tree
    is absent, the runtime counting as present when its source tree or its
    prebuilt tree exists. *)
Definition tree_missing {W} (env : Env W) (b : OFIQBuilder) (w : W) : bool :=
  negb (os_exists env (opencv_dir b) w)
  || negb (os_exists env (gtest_dir b) w)
  || negb (os_exists env (onnx_dir b) w
           || os_exists env (onnx_prebuilt b) w).

(** The first line of the report on missing dependency trees. *)
Definition missing_report_prefix : string :=
  PyText.nl ++ "  ❌ Cannot build from source - missing dependencies: ".

Definition is_missing_report (e : event) : bool :=
  match e with
  | EPrint line => String.prefix missing_report_prefix line
  | _ => false
  end.

(** The run ended in the fatal exit of [_build_from_source] that reports
    missing dependency trees. *)
Definition dependency_missing {W A} (r : result W A) : Prop :=
  res_outcome r = SystemExit 1
  /\ existsb is_missing_report (res_events r) = true.

Definition is_spawn (e : event) : bool :=
  match e with ESpawn _ _ _ _ => true | _ => false end.

Definition not_missing_report (e : event) : bool :=
  negb (is_missing_report e).


(** [tool --version] raises one of the two exceptions that the probes
    of [check_prerequisites] catch. *)
Definition probe_fails {W} (env : Env W) (tool : string) (w : W) : bool :=
  match fst (os_spawn env [tool; "--version"] None false w) with
  | inl (CalledProcessError _) | inl (FileNotFoundError _) => true
  | _ => false
  end.

(** The package manager is neither on the search path nor at any of the
    fallback locations. *)
Definition conan_absent {W} (env : Env W) (w : W) : bool :=
  probe_fails env "conan" w
  && forallb
       (fun p =>
          negb (os_exists env p
                  (snd (os_spawn env ["conan"; "--version"] None false w))))
       conan_paths.

(** [word in line]. *)
Fixpoint mentions (word line : string) : bool :=
  String.prefix word line
  || match line with
     | EmptyString => false
     | String _ rest => mentions word rest
     end.

Definition print_mentions (word : string) (e : event) : bool :=
  match e with
  | EPrint line => mentions word line
  | _ => false
  end.

(** The same machine under another platform name. *)
Definition with_platform {W} (name : string) (env : Env W) : Env W :=
  {| platform_system := name;
     os_spawn := os_spawn env;
     os_exists := os_exists env;
     os_rmtree := os_rmtree env;
     os_mkdir := os_mkdir env;
     os_iterdir := os_iterdir env;
     os_stat_size := os_stat_size env |}.

(** Two runs that end alike: same outcome, same builder, same world. *)
Definition same_end {W A} (r r' : result W A) : Prop :=
  res_outcome r = res_outcome r'
  /\ res_self r = res_self r'
  /\ res_world r = res_world r'.

(** [emits P m]: whatever the builder and the world, every event of [m]
    satisfies [P]. *)
Definition emits {W A} (P : event -> bool) (m : M W A) : Prop :=
  forall b w, forallb P (res_events (m b w)) = true.

(** A subprocess call: command line, working directory and [shell=]. *)
Definition call : Type := (list string * option path * bool)%type.

(** The subprocess calls of a trace, in order. *)
Fixpoint calls (evs : list event) : list call :=
  match evs with
  | [] => []
  | ESpawn cmd cwd shell _ :: tl => (cmd, cwd, shell) :: calls tl
  | _ :: tl => calls tl
  end.

Definition spawn_failed (e : event) : bool :=
  match e with ESpawn _ _ _ (inl _) => true | _ => false end.

Definition quiet (e : event) : bool := negb (is_spawn e).

(** No subprocess is started after one that failed. *)
Fixpoint failure_is_last (evs : list event) : bool :=
  match evs with
  | [] => true
  | e :: tl => if spawn_failed e then forallb quiet tl else failure_is_last tl
  end.

(** The five subprocess calls of [_build_from_source], in program order. *)
Definition build_steps (self : OFIQBuilder) : list call :=
  [ (opencv_configure_cmd self, Some (opencv_dir self), false);
    (opencv_build_cmd self, Some (opencv_dir self), false);
    (gtest_configure_cmd self, Some (gtest_dir self), false);
    (gtest_build_cmd self, Some (gtest_dir self), false);
    (onnx_build_cmd self, Some (onnx_dir self), true) ].

(** How a method ends when a subprocess raised [e]: [h e] is the status of
    the [sys.exit] of the handler that catches [e], if one does. *)
Definition handled {A} (h : exn -> option Z) (e : exn) : outcome A :=
  match h e with
  | Some c => SystemExit c
  | None => Raised e
  end.

Definition uncaught : exn -> option Z := fun _ => None.

Definition called_process_exits : exn -> option Z :=
  fun e => match e with CalledProcessError _ => Some 1 | _ => None end.

(** [disciplined h steps r]: the run [r] went through the calls [steps] in
    order and stopped at the first that failed. *)
Record disciplined {W A} (h : exn -> option Z) (steps : list call)
       (r : result W A) : Prop := mkDisciplined {
  d_prefix : exists k, calls (res_events r) = firstn k steps;
  d_last : failure_is_last (res_events r) = true;
  d_normal : forall a, res_outcome r = Normal a ->
             calls (res_events r) = steps
             /\ existsb spawn_failed (res_events r) = false;
  d_failed : forall cmd cwd shell e,
             In (ESpawn cmd cwd shell (inl e)) (res_events r) ->
             res_outcome r = handled h e;
  d_exit : forall c, res_outcome r = SystemExit c -> c = 1
}.

(** [faithful r]: [r] returned normally unless a subprocess failed. *)
Definition faithful {W A} (r : result W A) : Prop :=
  (exists a, res_outcome r = Normal a)
  \/ existsb spawn_failed (res_events r) = true.

(** [started_faithful r]: once a subprocess has been started, [r] returns
    normally unless a subprocess failed. *)
Definition started_faithful {W A} (r : result W A) : Prop :=
  calls (res_events r) <> [] -> faithful r.

(** Paths and command lines stay folded during symbolic execution. *)
Arguments opencv_dir : simpl never.
Arguments gtest_dir : simpl never.
Arguments onnx_dir : simpl never.
Arguments onnx_prebuilt : simpl never.
Arguments opencv_configure_cmd : simpl never.
Arguments opencv_build_cmd : simpl never.
Arguments gtest_configure_cmd : simpl never.
Arguments gtest_build_cmd : simpl never.
Arguments onnx_build_cmd : simpl never.
Arguments conan_cmd : simpl never.
Arguments configure_cmd : simpl never.
Arguments build_cmd : simpl never.
Arguments install_bin_dir : simpl never.
Arguments ofiq_lib_path : simpl never.
Arguments sample_app_path : simpl never.
Arguments pjoin : simpl never.

(** ** Further observations *)


(** [keeps_self m]: [m] assigns no attribute of the builder. *)
Definition keeps_self {W A} (m : M W A) : Prop :=
  forall b w, res_self (m b w) = b.

(** [exits_with_one m]: when [m] ends in [sys.exit], the status is 1. *)
Definition exits_with_one {W A} (m : M W A) : Prop :=
  forall b w c, res_outcome (m b w) = SystemExit c -> c = 1.

(** The stages of [run] that follow [check_prerequisites], with the
    closing lines of a successful run. *)
Definition after_prerequisites {W} (env : Env W) : M W unit :=
  build_dependencies env ;;
  configure_cmake env ;;
  build_project env ;;
  verify_build env ;;
  self <- attr id ;;
  print (PyText.nl ++ PyText.repeat_str "=" 50) ;;
  print "🎉 BUILD SUCCESSFUL!" ;;
  print ("📁 Output directory: " ++ (root_dir self </> install_dir self)) ;;
  print "📄 Library: ofiq_lib.dll" ;;
  print "🚀 Sample: OFIQSampleApp.exe" ;;
  print (PyText.nl ++ "You can now use the built library in your projects.").

(** The subprocess calls of the dependency stage, by the state of the
    builder: none when the stage is skipped (or cannot read an attribute),
    the package manager, or the five source builds. *)
Definition dependency_steps (b : OFIQBuilder) : list call :=
  match skip_deps b with
  | Some false =>
      if use_conan b then
        match conan_path b with
        | Some conan => [(conan_cmd b conan, Some (root_dir b), false)]
        | None => []
        end
      else build_steps b
  | _ => []
  end.

(** The subprocess calls of a run after the prerequisite check. *)
Definition run_steps (b : OFIQBuilder) : list call :=
  (dependency_steps b
   ++ [ (configure_cmd b, Some (root_dir b), false);
        (build_cmd b, Some (root_dir b), false) ])%list.

(** The probe of a tool. *)
Definition probe (tool : string) : call := ([tool; "--version"], None, false).

Definition spawn_succeeded (e : event) : bool :=
  match e with ESpawn _ _ _ (inr _) => true | _ => false end.

(** The tools whose probe raised, in the order of the probes. *)
Fixpoint failed_tools (evs : list event) : list string :=
  match evs with
  | [] => []
  | ESpawn (tool :: _) _ _ (inl _) :: tl => tool :: failed_tools tl
  | _ :: tl => failed_tools tl
  end.

(** [except (subprocess.CalledProcessError, FileNotFoundError)] catches
    [e]. *)
Definition is_caught (e : exn) : bool :=
  match e with
  | CalledProcessError _ | FileNotFoundError _ => true
  | _ => false
  end.

(** No subprocess is started after one that succeeded. *)
Fixpoint success_is_last (evs : list event) : bool :=
  match evs with
  | [] => true
  | e :: tl =>
      if spawn_succeeded e then forallb quiet tl else success_is_last tl
  end.






(** [machine_raises env e]: some call of the machine raises [e]. *)
Definition machine_raises {W} (env : Env W) (e : exn) : Prop :=
  (exists cmd cwd shell w, fst (os_spawn env cmd cwd shell w) = inl e)
  \/ (exists p w, fst (os_rmtree env p w) = Some e)
  \/ (exists p w, fst (os_mkdir env p w) = Some e)
  \/ (exists p w, os_iterdir env p w = inl e)
  \/ (exists p w, os_stat_size env p w = inl e).

(** [from_machine env r]: an exception with which [r] ends was raised by
    the machine, not by the script itself. *)
Definition from_machine {W A} (env : Env W) (r : result W A) : Prop :=
  forall e, res_outcome r = Raised e -> machine_raises env e.

Definition passes_on {W A} (env : Env W) (m : M W A) : Prop :=
  forall b w, from_machine env (m b w).

(** The attributes that [__init__] does not create are there when the
    dependency stage reads them. *)
Definition attributes_ready (b : OFIQBuilder) : Prop :=
  skip_deps b <> None /\ (use_conan b = true -> conan_path b <> None).


(** * Properties *)

(** ** Derived fields *)

Lemma valid_cases (a : Args.t) :
  Args.valid a = true ->
  (Args.arch a = "x64" \/ Args.arch a = "x86")
  /\ (Args.compiler a = 16 \/ Args.compiler a = 17).
Proof.
  unfold Args.valid. intros H. apply andb_prop in H as [Ha Hc].
  simpl in Ha, Hc. split.
  - destruct (String.eqb_spec (Args.arch a) "x64") as [->|_]; [now left|].
    destruct (String.eqb_spec (Args.arch a) "x86") as [->|_]; [now right|].
    discriminate.
  - destruct (Z.eqb_spec (Args.compiler a) 16) as [->|_]; [now left|].
    destruct (Z.eqb_spec (Args.compiler a) 17) as [->|_]; [now right|].
    discriminate.
Qed.

Ltac run_pure :=
  unfold configure_builder, parse_arguments, parser_parse_args,
    setup_environment, bind, prepend, attr, assign, print, ret, sys_exit;
  cbn.

(** C1.  For a command line that [argparse] accepts, the fields computed by
    [setup_environment] (generator, install directory, architecture flag,
    compiler tag and the three flag strings) and the build type depend on
    the command line only: two builders in any two earlier states end with
    the same values, running [setup_environment] once more changes none of
    them, and the default command line gives [install_x86_64],
    [Visual Studio 16 2019] and [-A x64]. *)
Theorem derived_fields_function_of_enums
  (W : Type) (cmdline : Args.t) (b1 b2 : OFIQBuilder) (w1 w2 : W) :
  Args.valid cmdline = true ->
  let r1 := configure_builder cmdline b1 w1 in
  let r2 := configure_builder cmdline b2 w2 in
  let again := setup_environment (res_self r1) (res_world r1) in
  res_outcome r1 = Normal tt
  /\ res_outcome r2 = Normal tt
  /\ derived_fields (res_self r1) = derived_fields (res_self r2)
  /\ config (res_self r1) = config (res_self r2)
  /\ derived_fields (res_self again) = derived_fields (res_self r1)
  /\ (Args.arch cmdline = "x64" -> Args.compiler cmdline = 16 ->
      Args.debug cmdline = false ->
      install_dir (res_self r1) = "install_x86_64"
      /\ generator (res_self r1) = "Visual Studio 16 2019"
      /\ set_architecture (res_self r1) = "-A x64"
      /\ vs_version (res_self r1) = "vc16"
      /\ config (res_self r1) = "Release").
Proof.
  intros Hv. destruct b1, b2.
  unfold configure_builder, parse_arguments, parser_parse_args.
  rewrite Hv.
  destruct (valid_cases _ Hv) as [[Ha|Ha] [Hc|Hc]].
  all: run_pure; rewrite Ha, Hc; cbn.
  all: repeat split; try reflexivity; try discriminate.
  all: match goal with
       | H : Args.debug _ = false |- _ => rewrite H; reflexivity
       end.
Qed.

Lemma derived_fields_function_of_enums_witness :
  Args.valid Args.defaults = true
  /\ derived_fields
       (res_self (configure_builder Args.defaults
                    (init "/ofiq" "/ofiq/scripts") tt))
     = derived_fields
         (res_self (configure_builder Args.defaults
                      (set_generator "Ninja"
                         (set_install_dir "out"
                            (init "/ofiq" "/ofiq/scripts"))) tt)).
Proof.
  split; [reflexivity|].
  apply (derived_fields_function_of_enums unit Args.defaults
           (init "/ofiq" "/ofiq/scripts")
           (set_generator "Ninja"
              (set_install_dir "out" (init "/ofiq" "/ofiq/scripts")))
           tt tt).
  reflexivity.
Defined.

(** The defaults of [__init__] agree with what [setup_environment]
    computes for the default command line. *)
Lemma init_agrees_with_defaults (W : Type) (root script : path) (w : W) :
  derived_fields
    (res_self (configure_builder Args.defaults (init root script) w))
  = derived_fields (init root script).
Proof. reflexivity. Qed.

(** C2, as stated, fails: for the default command line, switching the
    architecture to x86 also changes the package-manager architecture flag
    and the inference-runtime flag. *)
Lemma arch_x86_keeps_other_fields_counterexample :
  let b0 := init "/ofiq" "/ofiq/scripts" in
  let b64 := res_self (configure_builder Args.defaults b0 tt) in
  let b86 := res_self (configure_builder
                         (Args.mk "x86" 16 false false false false) b0 tt) in
  ~ (install_dir b86 <> install_dir b64
     /\ set_architecture b86 <> set_architecture b64
     /\ generator b86 = generator b64
     /\ vs_version b86 = vs_version b64
     /\ compiler_flags b86 = compiler_flags b64
     /\ conan_set_arch b86 = conan_set_arch b64
     /\ onnxruntime_flags b86 = onnxruntime_flags b64).
Proof.
  cbv zeta. intros (_ & _ & _ & _ & _ & Hconan & _).
  vm_compute in Hconan. discriminate Hconan.
Qed.

(** C2, amended.  With every other input of the command line fixed, x86
    instead of x64 changes the install directory, the architecture flag,
    the package-manager architecture flag and the inference-runtime flag,
    and leaves the generator, the compiler tag and the compiler flags (and
    the build type and both strategy switches) as they are. *)
Theorem arch_x86_changes_arch_fields_only
  (W : Type) (comp : Z) (dbg nc nd sk : bool) (b : OFIQBuilder) (w : W) :
  In comp Args.compiler_choices ->
  let b64 := res_self (configure_builder
                         (Args.mk "x64" comp dbg nc nd sk) b w) in
  let b86 := res_self (configure_builder
                         (Args.mk "x86" comp dbg nc nd sk) b w) in
  install_dir b86 <> install_dir b64
  /\ set_architecture b86 <> set_architecture b64
  /\ conan_set_arch b86 <> conan_set_arch b64
  /\ onnxruntime_flags b86 <> onnxruntime_flags b64
  /\ generator b86 = generator b64
  /\ vs_version b86 = vs_version b64
  /\ compiler_flags b86 = compiler_flags b64
  /\ config b86 = config b64
  /\ use_conan b86 = use_conan b64
  /\ download b86 = download b64
  /\ skip_deps b86 = skip_deps b64.
Proof.
  destruct b. intros [<-|[<-|[]]]; cbv zeta; run_pure.
  all: repeat split; try reflexivity; discriminate.
Qed.

Lemma arch_x86_changes_arch_fields_only_witness :
  In 17 Args.compiler_choices
  /\ install_dir
       (res_self (configure_builder
                    (Args.mk "x86" 17 true false false false)
                    (init "/ofiq" "/ofiq/scripts") tt))
     <> install_dir
          (res_self (configure_builder
                       (Args.mk "x64" 17 true false false false)
                       (init "/ofiq" "/ofiq/scripts") tt)).
Proof.
  split; [right; left; reflexivity|].
  apply (arch_x86_changes_arch_fields_only unit 17 true false false false
           (init "/ofiq" "/ofiq/scripts") tt).
  right; left; reflexivity.
Defined.

(** ** Reasoning about traces *)

Section TraceLogic.
Context {W : Type} (env : Env W) (P : event -> bool).

Lemma prepend_events {A} evs (r : result W A) :
  res_events (prepend evs r) = (evs ++ res_events r)%list.
Proof. destruct r; reflexivity. Qed.

Lemma prepend_outcome {A} evs (r : result W A) :
  res_outcome (prepend evs r) = res_outcome r.
Proof. destruct r; reflexivity. Qed.

Lemma prepend_self {A} evs (r : result W A) :
  res_self (prepend evs r) = res_self r.
Proof. destruct r; reflexivity. Qed.

Lemma prepend_world {A} evs (r : result W A) :
  res_world (prepend evs r) = res_world r.
Proof. destruct r; reflexivity. Qed.

Lemma bind_eq {A B} (m : M W A) (k : A -> M W B) b w :
  bind m k b w
  = match m b w with
    | mkResult (Normal a) b' w' evs => prepend evs (k a b' w')
    | mkResult (SystemExit c) b' w' evs => mkResult (SystemExit c) b' w' evs
    | mkResult (Raised e) b' w' evs => mkResult (Raised e) b' w' evs
    end.
Proof. reflexivity. Qed.

Lemma emits_ret {A} (a : A) : emits P (ret (W:=W) a).
Proof. intros b w; reflexivity. Qed.

Lemma emits_sys_exit {A} c : emits P (sys_exit (W:=W) (A:=A) c).
Proof. intros b w; reflexivity. Qed.

Lemma emits_attr {A} (f : OFIQBuilder -> A) : emits P (attr (W:=W) f).
Proof. intros b w; reflexivity. Qed.

Lemma emits_attr_opt {A} name (f : OFIQBuilder -> option A) :
  emits P (attr_opt (W:=W) name f).
Proof. intros b w; unfold attr_opt; destruct (f b); reflexivity. Qed.

Lemma emits_assign f : emits P (assign (W:=W) f).
Proof. intros b w; reflexivity. Qed.

Lemma emits_print line :
  P (EPrint line) = true -> emits P (print (W:=W) line).
Proof. intros H b w; cbn; now rewrite H. Qed.

Lemma emits_bind {A B} (m : M W A) (k : A -> M W B) :
  emits P m -> (forall a, emits P (k a)) -> emits P (bind m k).
Proof.
  intros Hm Hk b w. unfold bind. specialize (Hm b w).
  destruct (m b w) as [[a|c|e] b' w' evs]; cbn in *; trivial.
  rewrite prepend_events, forallb_app, Hm. apply Hk.
Qed.

Lemma emits_try {A} (body : M W A) handler :
  emits P body ->
  (forall e h, handler e = Some h -> emits P h) ->
  emits P (try_except body handler).
Proof.
  intros Hm Hh b w. unfold try_except. specialize (Hm b w).
  destruct (body b w) as [[a|c|e] b' w' evs]; cbn in *; trivial.
  destruct (handler e) as [h|] eqn:E; cbn; trivial.
  rewrite prepend_events, forallb_app, Hm. apply (Hh _ _ E).
Qed.

Lemma emits_spawn cmd cwd shell :
  (forall r, P (ESpawn cmd cwd shell r) = true) ->
  emits P (subprocess_run env cmd cwd shell).
Proof.
  intros H b w. unfold subprocess_run.
  destruct (os_spawn env cmd cwd shell w) as [r w']. cbn. now rewrite H.
Qed.

Lemma emits_exists p :
  (forall r, P (EExists p r) = true) -> emits P (path_exists env p).
Proof. intros H b w. cbn. now rewrite H. Qed.

Lemma emits_rmtree p : P (ERmtree p) = true -> emits P (rmtree env p).
Proof.
  intros H b w. unfold rmtree. destruct (os_rmtree env p w). cbn.
  now rewrite H.
Qed.

Lemma emits_mkdir p : P (EMkdir p) = true -> emits P (mkdir env p).
Proof.
  intros H b w. unfold mkdir. destruct (os_mkdir env p w). cbn.
  now rewrite H.
Qed.

Lemma emits_iterdir p :
  P (EIterdir p) = true -> emits P (iterdir_names env p).
Proof. intros H b w. cbn. now rewrite H. Qed.

Lemma emits_stat p : P (EStat p) = true -> emits P (stat_size env p).
Proof. intros H b w. cbn. now rewrite H. Qed.

End TraceLogic.

(** Decompose a method body along its statements, leaving the events as
    side conditions, which are closed by evaluation. *)
Ltac emits_step :=
  lazymatch goal with
  | |- emits _ (bind _ _) => apply emits_bind; [|intro]
  | |- emits _ (try_except _ _) =>
      apply emits_try;
      [|let e := fresh "e" in let h := fresh "h" in let E := fresh "E" in
        intros e h E; destruct e; inversion E; subst; clear E]
  | |- emits _ (if ?c then _ else _) => destruct c
  | |- emits _ (let '(_, _) := ?c in _) => destruct c
  | |- emits _ (ret _) => apply emits_ret
  | |- emits _ (sys_exit _) => apply emits_sys_exit
  | |- emits _ (attr _) => apply emits_attr
  | |- emits _ (attr_opt _ _) => apply emits_attr_opt
  | |- emits _ (assign _) => apply emits_assign
  | |- emits _ (print _) => apply emits_print; reflexivity
  | |- emits _ (subprocess_run _ _ _ _) =>
      apply emits_spawn; intro; reflexivity
  | |- emits _ (path_exists _ _) => apply emits_exists; intro; reflexivity
  | |- emits _ (rmtree _ _) => apply emits_rmtree; reflexivity
  | |- emits _ (mkdir _ _) => apply emits_mkdir; reflexivity
  | |- emits _ (iterdir_names _ _) => apply emits_iterdir; reflexivity
  | |- emits _ (stat_size _ _) => apply emits_stat; reflexivity
  end.

Ltac emits_auto := repeat emits_step.

(** ** The dependency stage *)

Lemma build_with_conan_no_report {W : Type} (env : Env W) :
  emits not_missing_report (_build_with_conan env).
Proof. unfold _build_with_conan, except_called. emits_auto. Qed.

Ltac unfold_py :=
  unfold subprocess_run, path_exists, rmtree, mkdir, iterdir_names,
    stat_size, try_except, except_called, except_called_or_not_found,
    bind, prepend, attr, attr_opt, assign, print, ret, sys_exit, raise,
    id in *.

(** One step of symbolic execution: case analysis on the next answer of
    the outside world. *)
Ltac ask_world :=
  match goal with
  | |- context [os_spawn ?e ?c ?d ?s ?w] =>
      let E := fresh "Hspawn" in
      destruct (os_spawn e c d s w) as [[[?|?|?|?|]|?] ?] eqn:E
  | |- context [os_exists ?e ?p ?w] =>
      let E := fresh "Hexists" in
      destruct (os_exists e p w) eqn:E
  | |- context [os_rmtree ?e ?p ?w] =>
      let E := fresh "Hrmtree" in
      destruct (os_rmtree e p w) as [[?|] ?] eqn:E
  | |- context [os_mkdir ?e ?p ?w] =>
      let E := fresh "Hmkdir" in
      destruct (os_mkdir e p w) as [[?|] ?] eqn:E
  | |- context [os_iterdir ?e ?p ?w] =>
      let E := fresh "Hiterdir" in
      destruct (os_iterdir e p w) as [?|?] eqn:E
  | |- context [os_stat_size ?e ?p ?w] =>
      let E := fresh "Hstat" in
      destruct (os_stat_size e p w) as [?|?] eqn:E
  end.

Ltac explore := repeat (cbn; ask_world); cbn.

(** The first part of [_build_from_source] asks only whether the trees
    exist, changes nothing, and ends in the fatal report exactly when a
    tree is missing. *)
Lemma source_trees_check_spec {W : Type} (env : Env W) b b' w :
  let r := source_trees_check env b b' w in
  res_self r = b' /\ res_world r = w
  /\ forallb (fun e => negb (is_spawn e)) (res_events r) = true
  /\ (if tree_missing env b w
      then res_outcome r = SystemExit 1
           /\ existsb is_missing_report (res_events r) = true
      else res_outcome r = Normal tt
           /\ existsb is_missing_report (res_events r) = false).
Proof.
  unfold source_trees_check, tree_missing. unfold_py. cbn.
  destruct (os_exists env (opencv_dir b) w);
    destruct (os_exists env (gtest_dir b) w);
    destruct (os_exists env (onnx_dir b) w);
    try destruct (os_exists env (onnx_prebuilt b) w).
  all: cbn; repeat split; reflexivity.
Qed.

Lemma existsb_false_forallb {A} (f : A -> bool) (l : list A) :
  existsb f l = false <-> forallb (fun x => negb (f x)) l = true.
Proof.
  induction l as [|x l IH]; cbn; [tauto|].
  destruct (f x); cbn; [split; discriminate|exact IH].
Qed.

Lemma build_steps_no_report {W : Type} (env : Env W) self :
  emits not_missing_report
        (build_opencv env self ;; build_googletest env self ;;
         build_onnxruntime env self).
Proof.
  unfold build_opencv, build_googletest, build_onnxruntime, except_called.
  emits_auto.
Qed.

Lemma build_from_source_missing_iff {W : Type} (env : Env W) b w :
  dependency_missing (_build_from_source env b w)
  <-> tree_missing env b w = true.
Proof.
  pose proof (source_trees_check_spec env b b w) as (_ & _ & _ & H).
  pose proof (build_steps_no_report env b) as Hrest.
  unfold dependency_missing, _build_from_source.
  rewrite bind_eq. unfold attr, id. cbn [prepend app].
  rewrite (bind_eq (source_trees_check env b)).
  destruct (source_trees_check env b b w) as [[[]|c|e] b' w' evs];
    destruct (tree_missing env b w); cbn in H; destruct H as [Ho He];
    try discriminate Ho;
    rewrite ?prepend_outcome, ?prepend_events, ?existsb_app;
    cbn [res_outcome res_events existsb orb].
  - rewrite He. cbn [orb].
    specialize (Hrest b' w'). apply existsb_false_forallb in Hrest.
    rewrite Hrest. split; [intros [_ ?]|]; discriminate.
  - injection Ho as ->. tauto.
Qed.

(** When the fatal report on missing dependency trees is issued. *)
Lemma skip_deps_missing_iff {W : Type} (env : Env W) b w :
  dependency_missing (build_dependencies env b w)
  <-> skip_deps b = Some false /\ use_conan b = false
      /\ tree_missing env b w = true.
Proof.
  unfold build_dependencies. rewrite bind_eq. unfold attr_opt.
  destruct (skip_deps b) as [[|]|] eqn:Hskip.
  - split; [intros [Ho _]; discriminate Ho|intros [? _]; discriminate].
  - rewrite bind_eq. unfold attr. cbn [prepend app].
    rewrite bind_eq. unfold print. cbn [prepend app].
    destruct (use_conan b) eqn:Hconan.
    + split; [|intros (_ & ? & _); discriminate].
      intros [_ He]. rewrite !prepend_events, !existsb_app in He.
      pose proof (build_with_conan_no_report env b w) as Hn.
      apply existsb_false_forallb in Hn. rewrite Hn in He.
      vm_compute in He. discriminate.
    + rewrite <- (build_from_source_missing_iff env b w).
      unfold dependency_missing.
      rewrite !prepend_outcome, !prepend_events, !existsb_app.
      cbn -[_build_from_source]. tauto.
  - split; [intros [Ho _]; discriminate Ho|intros [? _]; discriminate].
Qed.

(** C4.  With the skip flag set, the dependency stage only prints two
    lines: it asks for no path, starts no subprocess and leaves builder and
    world as they were, so the generator stage that follows starts from the
    same world, whatever trees it holds.  The fatal report on missing
    dependency trees is issued exactly when the skip flag is unset, the
    from-source strategy is selected and a tree is missing. *)
Theorem skip_deps_short_circuits {W : Type} (env : Env W) b w :
  let skipping := set_skip_deps true b in
  let lines :=
    [ EPrint (PyText.nl
              ++ "Skipping dependency building (--skip-deps specified)");
      EPrint "  Using available dependencies only" ] in
  build_dependencies env skipping w = mkResult (Normal tt) skipping w lines
  /\ (build_dependencies env ;; configure_cmake env) skipping w
     = prepend lines (configure_cmake env skipping w)
  /\ (dependency_missing (build_dependencies env b w)
      <-> skip_deps b = Some false /\ use_conan b = false
          /\ tree_missing env b w = true).
Proof.
  cbv zeta. split; [|split].
  - destruct b; reflexivity.
  - destruct b; reflexivity.
  - apply skip_deps_missing_iff.
Qed.

(** ** Artifact verification *)



(** ** Subprocess discipline *)

Section Discipline.
Context {W : Type} (env : Env W).

Lemma calls_app l1 l2 : calls (l1 ++ l2) = (calls l1 ++ calls l2)%list.
Proof.
  induction l1 as [|[] l1 IH]; cbn; trivial. now rewrite IH.
Qed.

Lemma quiet_calls l : forallb quiet l = true -> calls l = [].
Proof.
  induction l as [|[] l IH]; cbn; trivial; discriminate.
Qed.

Lemma quiet_no_failure l :
  forallb quiet l = true -> existsb spawn_failed l = false.
Proof.
  induction l as [|[] l IH]; cbn; trivial; discriminate.
Qed.

Lemma no_failure_is_last l :
  existsb spawn_failed l = false -> failure_is_last l = true.
Proof.
  induction l as [|e l IH]; cbn; trivial.
  destruct (spawn_failed e); cbn; [discriminate|exact IH].
Qed.

Lemma failure_is_last_app_ok l1 l2 :
  existsb spawn_failed l1 = false ->
  failure_is_last (l1 ++ l2) = failure_is_last l2.
Proof.
  induction l1 as [|e l1 IH]; cbn; trivial.
  destruct (spawn_failed e); cbn; [discriminate|exact IH].
Qed.

Lemma failure_is_last_app_quiet l1 l2 :
  failure_is_last l1 = true -> forallb quiet l2 = true ->
  failure_is_last (l1 ++ l2) = true.
Proof.
  intros H1 H2. induction l1 as [|e l1 IH]; cbn in *.
  - apply no_failure_is_last, quiet_no_failure, H2.
  - destruct (spawn_failed e); [|auto].
    rewrite forallb_app, H1, H2. reflexivity.
Qed.

(** The meaning of [failure_is_last]. *)
Lemma failure_is_last_spec l :
  failure_is_last l = true ->
  forall pre cmd cwd shell e post,
    l = (pre ++ ESpawn cmd cwd shell (inl e) :: post)%list ->
    calls post = [].
Proof.
  intros H pre. revert l H.
  induction pre as [|x pre IH]; intros l H cmd cwd shell e post ->.
  - cbn in H. now apply quiet_calls.
  - cbn in H. destruct (spawn_failed x).
    + rewrite forallb_app in H. apply andb_prop in H as [_ H].
      cbn in H. discriminate.
    + eapply IH; [exact H|reflexivity].
Qed.

Lemma firstn_app_left {A} k (l1 l2 : list A) :
  firstn k l1 = firstn (Nat.min k (length l1)) (l1 ++ l2).
Proof.
  revert k. induction l1 as [|x l1 IH]; intros [|k]; cbn; trivial.
  now rewrite IH.
Qed.

Lemma firstn_app_right {A} k (l1 l2 : list A) :
  (l1 ++ firstn k l2)%list = firstn (length l1 + k) (l1 ++ l2).
Proof.
  induction l1 as [|x l1 IH]; cbn; trivial. now rewrite IH.
Qed.

Lemma in_firstn {A} (x : A) k l : In x (firstn k l) -> In x l.
Proof.
  revert k. induction l as [|y l IH]; intros [|k]; cbn; try tauto.
  intros [->|H]; [now left|right; eauto].
Qed.

Lemma failed_in_events l cmd cwd shell e :
  In (ESpawn cmd cwd shell (inl e)) l -> existsb spawn_failed l = true.
Proof.
  intros H. apply existsb_exists. eexists. split; [exact H|reflexivity].
Qed.

(** A method that starts no subprocess and exits with status 1 only. *)
Lemma disciplined_quiet {A} h (r : result W A) :
  forallb quiet (res_events r) = true ->
  (forall c, res_outcome r = SystemExit c -> c = 1) ->
  disciplined h [] r.
Proof.
  intros Hq Hc. split; trivial.
  - exists 0%nat. now apply quiet_calls.
  - now apply no_failure_is_last, quiet_no_failure.
  - intros a _. split; [now apply quiet_calls|now apply quiet_no_failure].
  - intros cmd cwd shell e Hin. apply failed_in_events in Hin.
    rewrite quiet_no_failure in Hin by trivial. discriminate.
Qed.

Lemma disciplined_spawn cmd cwd shell b w :
  disciplined uncaught [(cmd, cwd, shell)]
              (subprocess_run env cmd cwd shell b w).
Proof.
  unfold subprocess_run.
  destruct (os_spawn env cmd cwd shell w) as [[e|out] w']; split; cbn.
  all: try (exists 1%nat; reflexivity); trivial; try discriminate.
  - intros ? ? ? e' [Heq|[]]. now injection Heq as <- <- <- <-.
  - split; reflexivity.
  - intros ? ? ? e' [Heq|[]]. discriminate.
Qed.

Lemma disciplined_bind {A B} h s1 s2 (m : M W A) (k : A -> M W B) b w :
  disciplined h s1 (m b w) ->
  (forall a, res_outcome (m b w) = Normal a ->
             disciplined h s2 (k a (res_self (m b w)) (res_world (m b w)))) ->
  disciplined h (s1 ++ s2) (bind m k b w).
Proof.
  intros [[k1 Hp] Hl Hn Hf He] Hk. rewrite bind_eq.
  destruct (m b w) as [[a|c|e] b' w' evs]; cbn in *.
  - destruct (Hn a eq_refl) as [Hc Hok].
    destruct (Hk a eq_refl) as [[k2 Hp2] Hl2 Hn2 Hf2 He2].
    split; rewrite ?prepend_outcome, ?prepend_events; trivial.
    + exists (length s1 + k2)%nat.
      rewrite calls_app, Hc, Hp2. apply firstn_app_right.
    + now rewrite failure_is_last_app_ok.
    + intros a' Ha. destruct (Hn2 a' Ha) as [Hc2 Hok2].
      rewrite calls_app, existsb_app, Hc, Hc2, Hok, Hok2. now split.
    + intros cmd cwd shell e Hin. apply in_app_or in Hin as [Hin|Hin].
      * apply failed_in_events in Hin. congruence.
      * eapply Hf2, Hin.
  - split; cbn; trivial; try discriminate.
    + exists (Nat.min k1 (length s1)). rewrite Hp. apply firstn_app_left.
    + intros cmd cwd shell e Hin. specialize (Hf _ _ _ _ Hin).
      unfold handled in *. destruct (h e); [congruence|discriminate].
    + intros c0 Hc. injection Hc as <-. now apply He.
  - split; cbn; trivial; try discriminate.
    + exists (Nat.min k1 (length s1)). rewrite Hp. apply firstn_app_left.
    + intros cmd cwd shell e' Hin. specialize (Hf _ _ _ _ Hin).
      unfold handled in *. destruct (h e'); [discriminate|congruence].
Qed.

(** [try: body  except subprocess.CalledProcessError as e: print(...);
    sys.exit(1)]. *)
Lemma disciplined_try {A} steps (body : M W A) (msg : exn -> string) b w :
  disciplined uncaught steps (body b w) ->
  disciplined called_process_exits steps
    (try_except body
       (except_called (fun e => print (msg e) ;; sys_exit 1)) b w).
Proof.
  intros [[k1 Hp] Hl Hn Hf He]. unfold try_except.
  destruct (body b w) as [[a|c|e] b' w' evs]; cbn in *.
  - split; cbn; eauto; try discriminate.
    intros cmd cwd shell e Hin. specialize (Hf _ _ _ _ Hin). discriminate.
  - split; cbn; eauto; try discriminate.
    intros cmd cwd shell e Hin. specialize (Hf _ _ _ _ Hin). discriminate.
  - assert (Hf' : forall cmd cwd shell e',
               In (ESpawn cmd cwd shell (inl e')) evs -> e' = e).
    { intros cmd cwd shell e' Hin. specialize (Hf _ _ _ _ Hin).
      unfold handled, uncaught in Hf. congruence. }
    destruct e; cbn; split; cbn; eauto; try discriminate.
    all: try (intros cmd cwd shell e' Hin;
              try (apply in_app_or in Hin as [Hin|[Hin|[]]];
                   [|discriminate Hin]);
              rewrite (Hf' _ _ _ _ Hin); reflexivity).
    + exists k1. rewrite calls_app, Hp. cbn. apply app_nil_r.
    + now apply failure_is_last_app_quiet.
    + intros c Hc. now injection Hc as <-.
Qed.

(** Statements that start no subprocess. *)
Lemma disciplined_print h line b w :
  disciplined h [] (print (W:=W) line b w).
Proof. apply disciplined_quiet; [reflexivity|discriminate]. Qed.

Lemma disciplined_ret {A} h (a : A) b w :
  disciplined h [] (ret (W:=W) a b w).
Proof. apply disciplined_quiet; [reflexivity|discriminate]. Qed.

Lemma disciplined_attr {A} h (f : OFIQBuilder -> A) b w :
  disciplined h [] (attr (W:=W) f b w).
Proof. apply disciplined_quiet; [reflexivity|discriminate]. Qed.

Lemma disciplined_exists h p b w :
  disciplined h [] (path_exists env p b w).
Proof. apply disciplined_quiet; [reflexivity|discriminate]. Qed.

Lemma disciplined_rmtree h p b w :
  disciplined h [] (rmtree env p b w).
Proof.
  unfold rmtree. destruct (os_rmtree env p w) as [[e|] w'].
  all: apply disciplined_quiet; [reflexivity|discriminate].
Qed.

(** ** Normal return unless a subprocess failed *)

Lemma faithful_normal {A} (r : result W A) a :
  res_outcome r = Normal a -> faithful r.
Proof. intros H. left. now exists a. Qed.

Lemma faithful_prepend {A} evs (r : result W A) :
  faithful r -> faithful (prepend evs r).
Proof.
  intros [[a Ha]|Hf]; [left|right].
  - exists a. now rewrite prepend_outcome.
  - rewrite prepend_events, existsb_app, Hf. apply orb_true_r.
Qed.

Lemma faithful_spawn cmd cwd shell b w :
  faithful (subprocess_run env cmd cwd shell b w).
Proof.
  unfold subprocess_run.
  destruct (os_spawn env cmd cwd shell w) as [[e|out] w'].
  - now right.
  - left. now exists out.
Qed.

Lemma faithful_bind {A B} (m : M W A) (k : A -> M W B) b w :
  faithful (m b w) ->
  (forall a, res_outcome (m b w) = Normal a ->
             faithful (k a (res_self (m b w)) (res_world (m b w)))) ->
  faithful (bind m k b w).
Proof.
  intros Hm Hk. rewrite bind_eq.
  destruct (m b w) as [[a|c|e] b' w' evs]; cbn in *.
  - now apply faithful_prepend, Hk.
  - destruct Hm as [[a Ha]|Hf]; [discriminate|now right].
  - destruct Hm as [[a Ha]|Hf]; [discriminate|now right].
Qed.

Lemma faithful_try {A} (body : M W A) (msg : exn -> string) b w :
  faithful (body b w) ->
  faithful (try_except body
              (except_called (fun e => print (msg e) ;; sys_exit 1)) b w).
Proof.
  intros Hm. unfold try_except.
  destruct (body b w) as [[a|c|e] b' w' evs]; cbn in *; trivial.
  destruct Hm as [[a Ha]|Hf]; [discriminate|]. cbn in Hf.
  destruct e; cbn; right; cbn; trivial.
  now rewrite existsb_app, Hf.
Qed.

Lemma started_of_faithful {A} (r : result W A) :
  faithful r -> started_faithful r.
Proof. intros H _. exact H. Qed.

Lemma started_quiet_bind {A B} (m : M W A) (k : A -> M W B) b w :
  forallb quiet (res_events (m b w)) = true ->
  (forall a, res_outcome (m b w) = Normal a ->
             started_faithful
               (k a (res_self (m b w)) (res_world (m b w)))) ->
  started_faithful (bind m k b w).
Proof.
  intros Hq Hk. rewrite bind_eq.
  destruct (m b w) as [[a|c|e] b' w' evs]; cbn in *.
  - intros Hc. rewrite prepend_events, calls_app, quiet_calls in Hc by trivial.
    now apply faithful_prepend, Hk.
  - intros Hc. cbn in Hc. now rewrite quiet_calls in Hc.
  - intros Hc. cbn in Hc. now rewrite quiet_calls in Hc.
Qed.

Lemma started_bind_faithful {A B} (m : M W A) (k : A -> M W B) b w :
  started_faithful (m b w) ->
  (forall a, res_outcome (m b w) = Normal a ->
             faithful (k a (res_self (m b w)) (res_world (m b w)))) ->
  started_faithful (bind m k b w).
Proof.
  intros Hm Hk. rewrite bind_eq. unfold started_faithful in *.
  destruct (m b w) as [[a|c|e] b' w' evs]; cbn in *.
  - intros _. now apply faithful_prepend, Hk.
  - intros Hc. destruct (Hm Hc) as [[a Ha]|Hf]; [discriminate|now right].
  - intros Hc. destruct (Hm Hc) as [[a Ha]|Hf]; [discriminate|now right].
Qed.

End Discipline.

(** ** Building the dependencies from source *)

Section FromSource.
Context {W : Type} (env : Env W) (self : OFIQBuilder).

Lemma source_trees_check_disciplined h b w :
  disciplined h [] (source_trees_check env self b w).
Proof.
  pose proof (source_trees_check_spec env self b w) as (_ & _ & Hq & Ho).
  apply disciplined_quiet; [exact Hq|].
  destruct (tree_missing env self w); destruct Ho as [Ho _];
    rewrite Ho; intros c Hc; now inversion Hc.
Qed.

Lemma build_opencv_disciplined b w :
  disciplined called_process_exits
    [ (opencv_configure_cmd self, Some (opencv_dir self), false);
      (opencv_build_cmd self, Some (opencv_dir self), false) ]
    (build_opencv env self b w).
Proof.
  unfold build_opencv.
  eapply (disciplined_bind _ []); [apply disciplined_print|intros _ _].
  eapply (disciplined_bind _ []); [apply disciplined_exists|intros stale _].
  eapply (disciplined_bind _ []);
    [destruct stale; [apply disciplined_rmtree|apply disciplined_ret]
    |intros _ _].
  apply disciplined_try.
  eapply (disciplined_bind _ [_] [_]); [apply disciplined_spawn|intros _ _].
  eapply (disciplined_bind _ [_] []); [apply disciplined_spawn|intros _ _].
  apply disciplined_print.
Qed.

Lemma build_googletest_disciplined b w :
  disciplined called_process_exits
    [ (gtest_configure_cmd self, Some (gtest_dir self), false);
      (gtest_build_cmd self, Some (gtest_dir self), false) ]
    (build_googletest env self b w).
Proof.
  unfold build_googletest.
  eapply (disciplined_bind _ []); [apply disciplined_print|intros _ _].
  apply disciplined_try.
  eapply (disciplined_bind _ [_] [_]); [apply disciplined_spawn|intros _ _].
  eapply (disciplined_bind _ [_] []); [apply disciplined_spawn|intros _ _].
  apply disciplined_print.
Qed.

Lemma build_onnxruntime_disciplined b w :
  disciplined called_process_exits
    [ (onnx_build_cmd self, Some (onnx_dir self), true) ]
    (build_onnxruntime env self b w).
Proof.
  unfold build_onnxruntime.
  eapply (disciplined_bind _ []); [apply disciplined_print|intros _ _].
  apply disciplined_try.
  eapply (disciplined_bind _ [_] []); [apply disciplined_spawn|intros _ _].
  apply disciplined_print.
Qed.

Lemma build_opencv_started b w :
  started_faithful (build_opencv env self b w).
Proof.
  unfold build_opencv.
  apply started_quiet_bind; [reflexivity|intros _ _].
  apply started_quiet_bind; [reflexivity|intros stale _].
  apply started_quiet_bind;
    [destruct stale; [|reflexivity]; unfold rmtree; cbn;
     destruct (os_rmtree env _ _) as [[?|] ?]; reflexivity
    |intros _ _].
  apply started_of_faithful, faithful_try.
  apply faithful_bind; [apply faithful_spawn|intros _ _].
  apply faithful_bind; [apply faithful_spawn|intros _ _].
  now eapply faithful_normal.
Qed.

Lemma build_googletest_faithful b w :
  faithful (build_googletest env self b w).
Proof.
  unfold build_googletest.
  apply faithful_bind; [now eapply faithful_normal|intros _ _].
  apply faithful_try.
  apply faithful_bind; [apply faithful_spawn|intros _ _].
  apply faithful_bind; [apply faithful_spawn|intros _ _].
  now eapply faithful_normal.
Qed.

Lemma build_onnxruntime_faithful b w :
  faithful (build_onnxruntime env self b w).
Proof.
  unfold build_onnxruntime.
  apply faithful_bind; [now eapply faithful_normal|intros _ _].
  apply faithful_try.
  apply faithful_bind; [apply faithful_spawn|intros _ _].
  now eapply faithful_normal.
Qed.

End FromSource.

Lemma build_from_source_disciplined {W : Type} (env : Env W) b w :
  disciplined called_process_exits (build_steps b)
              (_build_from_source env b w).
Proof.
  unfold _build_from_source, build_steps.
  eapply (disciplined_bind _ []);
    [apply disciplined_attr|intros self [= <-]].
  cbn [attr res_self res_world]. unfold id.
  eapply (disciplined_bind _ []);
    [apply source_trees_check_disciplined|intros _ _].
  eapply (disciplined_bind _ [_; _] [_; _; _]);
    [apply build_opencv_disciplined|intros _ _].
  eapply (disciplined_bind _ [_; _] [_]);
    [apply build_googletest_disciplined|intros _ _].
  apply build_onnxruntime_disciplined.
Qed.

Lemma build_from_source_started {W : Type} (env : Env W) b w :
  started_faithful (_build_from_source env b w).
Proof.
  unfold _build_from_source.
  apply started_quiet_bind; [reflexivity|intros self [= <-]].
  cbn [attr res_self res_world].
  apply started_quiet_bind;
    [apply (source_trees_check_spec env (id b) b w)|intros _ _].
  apply started_bind_faithful; [apply build_opencv_started|intros _ _].
  apply faithful_bind;
    [apply build_googletest_faithful
    |intros _ _; apply build_onnxruntime_faithful].
Qed.

Lemma prepend_nil {W A} (r : result W A) : prepend [] r = r.
Proof. destruct r; reflexivity. Qed.

(** The two strategies of [build_dependencies] when the stage is not
    skipped. *)
Lemma build_dependencies_from_source {W : Type} (env : Env W) b w :
  skip_deps b = Some false -> use_conan b = false ->
  build_dependencies env b w
  = (print (PyText.nl ++ "Building dependencies (Conan: False)...") ;;
     _build_from_source env) b w.
Proof.
  intros Hs Hc. unfold build_dependencies.
  rewrite bind_eq. unfold attr_opt. rewrite Hs. cbn [prepend app].
  rewrite bind_eq. unfold attr. rewrite Hc. cbn [prepend app].
  now rewrite !prepend_nil.
Qed.


Lemma calls_bind_head {W A B} (m : M W A) (k : A -> M W B) b w c rest :
  calls (res_events (m b w)) = c :: rest ->
  exists rest', calls (res_events (bind m k b w)) = c :: rest'.
Proof.
  intros H. rewrite bind_eq.
  destruct (m b w) as [[a|x|e] b' w' evs]; cbn in *; eauto.
  rewrite prepend_events, calls_app, H. cbn. eauto.
Qed.

(** Unless a stale build directory cannot be removed, the OpenCV block
    starts with its configure command. *)
Lemma build_opencv_starts {W : Type} (env : Env W) self b w :
  os_exists env (opencv_dir self </> "build") w = false
  \/ fst (os_rmtree env (opencv_dir self </> "build") w) = None ->
  exists rest,
    calls (res_events (build_opencv env self b w))
    = (opencv_configure_cmd self, Some (opencv_dir self), false) :: rest.
Proof.
  intros H. unfold build_opencv. unfold_py. cbn.
  destruct (os_exists env (opencv_dir self </> "build") w).
  - destruct H as [H|H]; [discriminate|].
    destruct (os_rmtree env (opencv_dir self </> "build") w) as [[e|] w1];
      [discriminate|]. cbn. explore; eauto.
  - cbn. explore; eauto.
Qed.

Lemma build_from_source_starts {W : Type} (env : Env W) b w :
  tree_missing env b w = false ->
  os_exists env (opencv_dir b </> "build") w = false
  \/ fst (os_rmtree env (opencv_dir b </> "build") w) = None ->
  exists rest,
    calls (res_events (_build_from_source env b w))
    = (opencv_configure_cmd b, Some (opencv_dir b), false) :: rest.
Proof.
  intros Hm Hs. unfold _build_from_source.
  rewrite bind_eq. unfold attr, id. cbn [prepend app].
  rewrite prepend_nil, bind_eq.
  pose proof (source_trees_check_spec env b b w) as (Hb & Hw & Hq & Ho).
  rewrite Hm in Ho. destruct Ho as [Ho _].
  destruct (source_trees_check env b b w) as [o b' w' evs]. cbn in *.
  subst. rewrite prepend_events, calls_app, (quiet_calls _ Hq). cbn [app].
  destruct (build_opencv_starts env b b w Hs) as [rest Hrest].
  eapply calls_bind_head, Hrest.
Qed.

Lemma build_dependencies_from_source_disciplined
  {W : Type} (env : Env W) b w :
  skip_deps b = Some false -> use_conan b = false ->
  disciplined called_process_exits (build_steps b)
              (build_dependencies env b w)
  /\ started_faithful (build_dependencies env b w)
  /\ calls (res_events (build_dependencies env b w))
     = calls (res_events (_build_from_source env b w)).
Proof.
  intros Hs Hc. rewrite (build_dependencies_from_source env b w Hs Hc).
  split; [|split].
  - eapply (disciplined_bind _ []); [apply disciplined_print|intros _ _].
    apply build_from_source_disciplined.
  - apply started_quiet_bind; [reflexivity|intros _ _].
    apply build_from_source_started.
  - rewrite bind_eq. unfold print. now rewrite prepend_events.
Qed.

(** C7.  From source, with the trees present: the subprocess calls are an
    initial part of the fixed list OpenCV configure, OpenCV build,
    GoogleTest configure, GoogleTest build, ONNX Runtime build; the first
    call is made unless a stale OpenCV build directory cannot be removed;
    once a call has been made the stage returns normally, after all five,
    unless a call fails; after a failed call no further call is made and
    the stage ends with status 1, through [sys.exit(1)] when the failure is
    a non-zero exit status. *)
Theorem from_source_builds_in_order {W : Type} (env : Env W) b w :
  skip_deps b = Some false -> use_conan b = false ->
  tree_missing env b w = false ->
  let r := build_dependencies env b w in
  let evs := res_events r in
  (exists k, calls evs = firstn k (build_steps b))
  /\ (os_exists env (opencv_dir b </> "build") w = false
      \/ fst (os_rmtree env (opencv_dir b </> "build") w) = None ->
      calls evs <> [])
  /\ (calls evs <> [] -> existsb spawn_failed evs = false ->
      res_outcome r = Normal tt)
  /\ (res_outcome r = Normal tt ->
      calls evs = build_steps b /\ existsb spawn_failed evs = false)
  /\ (forall pre cmd cwd shell e post,
        evs = (pre ++ ESpawn cmd cwd shell (inl e) :: post)%list ->
        calls post = []
        /\ res_outcome r = handled called_process_exits e
        /\ exit_status (res_outcome r) = 1)
  /\ (res_outcome r <> Normal tt -> exit_status (res_outcome r) = 1).
Proof.
  intros Hs Hc Hm. cbv zeta.
  destruct (build_dependencies_from_source_disciplined env b w Hs Hc)
    as ([Hp Hl Hn Hf He] & Hstart & Hcalls).
  split; [exact Hp|]. split; [|split; [|split; [|split]]].
  - intros Hstale. rewrite Hcalls.
    destruct (build_from_source_starts env b w Hm Hstale) as [rest ->].
    discriminate.
  - intros Hne Hok. destruct (Hstart Hne) as [[[] Ha]|Hfail]; congruence.
  - apply Hn.
  - intros pre cmd cwd shell e post Hevs.
    assert (Ho : res_outcome (build_dependencies env b w)
                 = handled called_process_exits e).
    { apply (Hf cmd cwd shell). rewrite Hevs. apply in_elt. }
    split; [eapply failure_is_last_spec; eauto|]. split; [exact Ho|].
    rewrite Ho. destruct e; reflexivity.
  - intros Hne.
    destruct (res_outcome (build_dependencies env b w)) as [[]|c|e] eqn:Ho.
    + now elim Hne.
    + cbn. now apply He.
    + reflexivity.
Qed.

Lemma events_bind_incl {W A B} (m : M W A) (k : A -> M W B) b w e :
  In e (res_events (m b w)) -> In e (res_events (bind m k b w)).
Proof.
  intros H. rewrite bind_eq.
  destruct (m b w) as [[a|c|x] b' w' evs]; cbn in *; trivial.
  rewrite prepend_events. apply in_or_app. now left.
Qed.

(** The presence check when only the prebuilt runtime tree exists. *)
Lemma source_trees_check_prebuilt_only {W : Type} (env : Env W) self b w :
  os_exists env (opencv_dir self) w = true ->
  os_exists env (gtest_dir self) w = true ->
  os_exists env (onnx_dir self) w = false ->
  os_exists env (onnx_prebuilt self) w = true ->
  source_trees_check env self b w
  = mkResult (Normal tt) b w
      [ EPrint "  Building dependencies from source...";
        EExists (opencv_dir self) true;
        EExists (gtest_dir self) true;
        EExists (onnx_dir self) false;
        EExists (onnx_prebuilt self) true;
        EPrint "  Available dependencies: OpenCV, GoogleTest, ONNX Runtime";
        EPrint "  Missing dependencies: None";
        EPrint "  ✓ All external dependencies found" ].
Proof.
  intros H1 H2 H3 H4. unfold source_trees_check. unfold_py. cbn.
  rewrite H1, H2, H3, H4. reflexivity.
Qed.

(** C10.  From source, when the runtime is present only as the prebuilt
    tree: the presence check passes although it saw the source tree
    absent; the only call made through the shell is the runtime build, and
    its working directory is that absent source tree; and the runtime build
    is not skipped: once the builds have started and no call has failed,
    it is among the calls made. *)
Theorem prebuilt_runtime_is_built_in_source_tree
  {W : Type} (env : Env W) b w :
  skip_deps b = Some false -> use_conan b = false ->
  os_exists env (opencv_dir b) w = true ->
  os_exists env (gtest_dir b) w = true ->
  os_exists env (onnx_dir b) w = false ->
  os_exists env (onnx_prebuilt b) w = true ->
  let r := build_dependencies env b w in
  let evs := res_events r in
  tree_missing env b w = false
  /\ ~ dependency_missing r
  /\ In (EExists (onnx_dir b) false) evs
  /\ In (EExists (onnx_prebuilt b) true) evs
  /\ In (EPrint "  ✓ All external dependencies found") evs
  /\ (forall cmd cwd,
        In (cmd, cwd, true) (calls evs) ->
        cmd = onnx_build_cmd b /\ cwd = Some (onnx_dir b))
  /\ (calls evs <> [] -> existsb spawn_failed evs = false ->
      res_outcome r = Normal tt
      /\ In (onnx_build_cmd b, Some (onnx_dir b), true) (calls evs)).
Proof.
  intros Hs Hc H1 H2 H3 H4. cbv zeta.
  assert (Hm : tree_missing env b w = false).
  { unfold tree_missing. now rewrite H1, H2, H3, H4. }
  destruct (build_dependencies_from_source_disciplined env b w Hs Hc)
    as ([[k Hp] Hl Hn Hf He] & Hstart & Hcalls).
  assert (Hin : forall e,
             In e (res_events (source_trees_check env b b w)) ->
             In e (res_events (build_dependencies env b w))).
  { intros e Hin. rewrite (build_dependencies_from_source env b w Hs Hc).
    rewrite bind_eq. unfold print. rewrite prepend_events. right.
    unfold _build_from_source. rewrite bind_eq. unfold attr, id.
    rewrite prepend_events. now apply events_bind_incl. }
  rewrite (source_trees_check_prebuilt_only env b b w H1 H2 H3 H4) in Hin.
  split; [exact Hm|]. split; [|split; [|split; [|split; [|split]]]].
  - intros Hd.
    apply (skip_deps_missing_iff env b w) in Hd as (_ & _ & Hd). congruence.
  - apply Hin. cbn. auto 10.
  - apply Hin. cbn. auto 10.
  - apply Hin. cbn. auto 10.
  - intros cmd cwd Hcall. rewrite Hp in Hcall.
    apply in_firstn in Hcall. cbn in Hcall.
    repeat (destruct Hcall as [Hcall|Hcall]; [try discriminate Hcall|]).
    + now injection Hcall as <- <-.
    + destruct Hcall.
  - intros Hne Hok.
    destruct (Hstart Hne) as [[[] Ha]|Hfail]; [|congruence].
    split; [exact Ha|]. destruct (Hn tt Ha) as [-> _]. cbn. auto 10.
Qed.

Lemma from_source_builds_in_order_witness :
  skip_deps Scenario.from_source = Some false
  /\ use_conan Scenario.from_source = false
  /\ tree_missing Scenario.windows_pc Scenario.from_source Scenario.trees_all
     = false
  /\ res_outcome (build_dependencies Scenario.windows_pc Scenario.from_source
                                     Scenario.trees_all)
     = Normal tt.
Proof.
  split; [reflexivity|]. split; [reflexivity|]. split; [reflexivity|].
  destruct (from_source_builds_in_order Scenario.windows_pc
              Scenario.from_source Scenario.trees_all
              eq_refl eq_refl eq_refl) as (_ & _ & H & _).
  apply H; [vm_compute; discriminate|vm_compute; reflexivity].
Defined.

Lemma prebuilt_runtime_is_built_in_source_tree_witness :
  let env := Scenario.windows_pc in
  let b := Scenario.from_source in
  let w := Scenario.trees_prebuilt_only in
  skip_deps b = Some false /\ use_conan b = false
  /\ os_exists env (opencv_dir b) w = true
  /\ os_exists env (gtest_dir b) w = true
  /\ os_exists env (onnx_dir b) w = false
  /\ os_exists env (onnx_prebuilt b) w = true
  /\ In (EExists (onnx_dir b) false)
        (res_events (build_dependencies env b w)).
Proof.
  cbv zeta. repeat (split; [reflexivity|]).
  destruct (prebuilt_runtime_is_built_in_source_tree Scenario.windows_pc
              Scenario.from_source Scenario.trees_prebuilt_only
              eq_refl eq_refl eq_refl eq_refl eq_refl eq_refl)
    as (_ & _ & H & _).
  exact H.
Defined.

(** On a machine where a program cannot be started in a directory that
    does not exist, the run with only the prebuilt runtime tree builds
    OpenCV and GoogleTest and then fails when it starts [build.bat] in the
    absent source tree. *)
Example prebuilt_only_run :
  let r := build_dependencies Scenario.windows_pc Scenario.from_source
                              Scenario.trees_prebuilt_only in
  res_outcome r = Raised (FileNotFoundError "No such file or directory")
  /\ last (res_events r) (EPrint "")
     = ESpawn (onnx_build_cmd Scenario.from_source)
              (Some "/ofiq/extern/onnxruntime") true
              (inl (FileNotFoundError "No such file or directory"))
  /\ length (calls (res_events r)) = 5%nat.
Proof. vm_compute. repeat split. Qed.


(** ** The package-manager strategy *)




(** ** Prerequisites *)

Section Prerequisites.
Context {W : Type} (env : Env W).

(** The package-manager probe when the package manager is nowhere. *)
Lemma check_conan_absent b w :
  conan_absent env w = true ->
  check_conan env b w
  = mkResult (SystemExit 1) b
      (snd (os_spawn env ["conan"; "--version"] None false w))
      ([ ESpawn ["conan"; "--version"] None false
           (fst (os_spawn env ["conan"; "--version"] None false w)) ]
       ++ map (fun p => EExists p false) conan_paths
       ++ [ EPrint "  ✗ conan: Not found in PATH or common locations";
            EPrint ("  Please ensure conan is installed and available in "
                    ++ "PATH, or specify the path manually") ]).
Proof.
  unfold conan_absent, probe_fails, check_conan. unfold_py.
  destruct (os_spawn env ["conan"; "--version"] None false w)
    as [[[]|out] w1]; cbn; try discriminate.
  all: intros H; repeat (apply andb_prop in H as [?%negb_true_iff H]).
  all: repeat (match goal with
               | E : os_exists ?e ?p ?x = false
                 |- context [os_exists ?e ?p ?x] => rewrite E
               end; unfold_py; cbn).
  all: reflexivity.
Qed.

(** The required-tools loop when [cmake] does not answer. *)
Lemma check_tools_cmake_absent b w :
  probe_fails env "cmake" w = true ->
  check_tools env required_tools [] b w
  = mkResult (Normal ["cmake"]) b
      (snd (os_spawn env ["cmake"; "--version"] None false w))
      [ ESpawn ["cmake"; "--version"] None false
          (fst (os_spawn env ["cmake"; "--version"] None false w));
        EPrint "  ✗ cmake: Not found" ].
Proof.
  unfold probe_fails, required_tools, check_tools. unfold_py.
  destruct (os_spawn env ["cmake"; "--version"] None false w)
    as [[[]|out] w1]; cbn; try discriminate; reflexivity.
Qed.

(** The checker, given how the package-manager block ended. *)
Lemma check_prerequisites_cmake_absent b w b1 w1 evs1 :
  (if use_conan b then check_conan env else ret tt) b w
  = mkResult (Normal tt) b1 w1 evs1 ->
  probe_fails env "cmake" w1 = true ->
  check_prerequisites env b w
  = mkResult (SystemExit 1) b1
      (snd (os_spawn env ["cmake"; "--version"] None false w1))
      ([EPrint "Checking prerequisites..."] ++ evs1
       ++ [ ESpawn ["cmake"; "--version"] None false
              (fst (os_spawn env ["cmake"; "--version"] None false w1));
            EPrint "  ✗ cmake: Not found";
            EPrint (PyText.nl ++ "Error: Missing required tools: cmake");
            EPrint "Please install the missing tools and try again." ]).
Proof.
  intros Hconan Hcmake. unfold check_prerequisites, probe_tools.
  rewrite !bind_eq. unfold print at 1. cbn [prepend app].
  rewrite bind_eq. unfold attr at 1. cbn [prepend app].
  rewrite bind_eq, Hconan. rewrite bind_eq.
  rewrite (check_tools_cmake_absent b1 w1 Hcmake). cbn.
  reflexivity.
Qed.

(** The checker when the package manager is required and nowhere. *)
Lemma check_prerequisites_conan_absent b w :
  use_conan b = true -> conan_absent env w = true ->
  check_prerequisites env b w
  = mkResult (SystemExit 1) b
      (snd (os_spawn env ["conan"; "--version"] None false w))
      ([ EPrint "Checking prerequisites...";
         ESpawn ["conan"; "--version"] None false
           (fst (os_spawn env ["conan"; "--version"] None false w)) ]
       ++ map (fun p => EExists p false) conan_paths
       ++ [ EPrint "  ✗ conan: Not found in PATH or common locations";
            EPrint ("  Please ensure conan is installed and available in "
                    ++ "PATH, or specify the path manually") ]).
Proof.
  intros Hc Ha. unfold check_prerequisites, probe_tools.
  rewrite !bind_eq. unfold print at 1. cbn [prepend app].
  rewrite bind_eq. unfold attr at 1. cbn [prepend app].
  rewrite bind_eq, Hc, (check_conan_absent b w Ha). reflexivity.
Qed.

End Prerequisites.

(** C8, as stated, fails: on a machine without any tool, with the package
    manager required, the checker exits with status 1 after reporting the
    package manager only; [cmake], which is missing too, is neither probed
    nor named in anything printed. *)
Lemma all_missing_tools_listed_counterexample :
  let env := Scenario.bare_pc in
  let b := Scenario.configured Args.defaults in
  let r := check_prerequisites env b [] in
  use_conan b = true
  /\ conan_absent env [] = true
  /\ probe_fails env "cmake" [] = true
  /\ res_outcome r = SystemExit 1
  /\ ~ (exists e, In e (res_events r) /\ print_mentions "cmake" e = true).
Proof.
  cbv zeta. repeat (split; [reflexivity|]).
  intros [e [Hin He]]. vm_compute in Hin.
  repeat (destruct Hin as [<-|Hin]; [discriminate He|]). exact Hin.
Qed.

(** C8, amended.  When the package manager is required and is neither on
    the search path nor at a fallback location, the checker exits with
    status 1 after printing that conan was not found, and probes nothing
    else.  When the package-manager block completes (or is not needed) and
    [cmake] does not answer, the checker exits with status 1 after printing
    the list of missing required tools, which is [cmake]. *)
Theorem missing_tool_is_fatal {W : Type} (env : Env W) b w :
  let r := check_prerequisites env b w in
  (use_conan b = true -> conan_absent env w = true ->
   res_outcome r = SystemExit 1
   /\ In (EPrint "  ✗ conan: Not found in PATH or common locations")
         (res_events r)
   /\ calls (res_events r) = [(["conan"; "--version"], None, false)])
  /\ (use_conan b = false -> probe_fails env "cmake" w = true ->
      res_outcome r = SystemExit 1
      /\ In (EPrint (PyText.nl ++ "Error: Missing required tools: cmake"))
            (res_events r))
  /\ (forall b1 w1 evs1,
        (if use_conan b then check_conan env else ret tt) b w
        = mkResult (Normal tt) b1 w1 evs1 ->
        probe_fails env "cmake" w1 = true ->
        res_outcome r = SystemExit 1
        /\ In (EPrint (PyText.nl ++ "Error: Missing required tools: cmake"))
              (res_events r)).
Proof.
  cbv zeta. split; [|split].
  - intros Hc Ha. rewrite (check_prerequisites_conan_absent env b w Hc Ha).
    cbn. repeat split. auto 10.
  - intros Hc Hm.
    rewrite (check_prerequisites_cmake_absent env b w b w []);
      [|now rewrite Hc|exact Hm].
    split; [reflexivity|]. cbn. auto 10.
  - intros b1 w1 evs1 Hconan Hm.
    rewrite (check_prerequisites_cmake_absent env b w b1 w1 evs1 Hconan Hm).
    split; [reflexivity|]. cbn. right. apply in_or_app. right. cbn. auto.
Qed.

Lemma missing_tool_is_fatal_witness :
  let env := Sim.machine "Windows" ["conan"] [] [] in
  let b := Scenario.configured Args.defaults in
  (use_conan b = true /\ conan_absent Scenario.bare_pc [] = true
   /\ res_outcome (check_prerequisites Scenario.bare_pc b []) = SystemExit 1)
  /\ (check_conan env b []
      = mkResult (Normal tt) (set_conan_path "conan" b) []
          [ ESpawn ["conan"; "--version"] None false
              (inr ("conan version 1.0" ++ PyText.nl));
            EPrint "  ✓ conan: conan version 1.0" ]
      /\ probe_fails env "cmake" [] = true
      /\ res_outcome (check_prerequisites env b []) = SystemExit 1).
Proof.
  cbv zeta. split.
  - split; [reflexivity|]. split; [reflexivity|].
    destruct (missing_tool_is_fatal Scenario.bare_pc
                (Scenario.configured Args.defaults) []) as (H & _).
    apply H; reflexivity.
  - split; [reflexivity|]. split; [reflexivity|].
    destruct (missing_tool_is_fatal (Sim.machine "Windows" ["conan"] [] [])
                (Scenario.configured Args.defaults) []) as (_ & _ & H).
    eapply H; reflexivity.
Defined.

(** ** The whole run *)

Lemma bind_assoc {W A B C} (m : M W A) (f : A -> M W B) (g : B -> M W C) b w :
  bind (bind m f) g b w = bind m (fun x => bind (f x) g) b w.
Proof.
  rewrite (bind_eq (bind m f) g), (bind_eq m f), (bind_eq m).
  destruct (m b w) as [[a|c|e] b1 w1 evs1]; trivial.
  rewrite (bind_eq (f a) g).
  destruct (f a b1 w1) as [[a2|c|e] b2 w2 evs2]; trivial. cbn.
  destruct (g a2 b2 w2) as [o b3 w3 evs3]. cbn. now rewrite app_assoc.
Qed.

(** [run_stages] begins with [parse_arguments] and [setup_environment]. *)
Lemma run_stages_eq {W : Type} (env : Env W) cmdline b w :
  run_stages env cmdline b w
  = bind (configure_builder cmdline)
         (fun _ =>
            check_prerequisites env ;;
            build_dependencies env ;;
            configure_cmake env ;;
            build_project env ;;
            verify_build env ;;
            self <- attr id ;;
            print (PyText.nl ++ PyText.repeat_str "=" 50) ;;
            print "🎉 BUILD SUCCESSFUL!" ;;
            print ("📁 Output directory: "
                   ++ (root_dir self </> install_dir self)) ;;
            print "📄 Library: ofiq_lib.dll" ;;
            print "🚀 Sample: OFIQSampleApp.exe" ;;
            print (PyText.nl
                   ++ "You can now use the built library in your projects."))
         b w.
Proof. unfold configure_builder. now rewrite bind_assoc. Qed.

(** What [parse_arguments] and [setup_environment] leave behind. *)
Lemma configure_builder_result {W : Type} cmdline b (w : W) :
  Args.valid cmdline = true ->
  exists b' evs,
    configure_builder cmdline b w = mkResult (Normal tt) b' w evs
    /\ forallb quiet evs = true
    /\ use_conan b' = negb (Args.no_conan cmdline)
    /\ skip_deps b' = Some (Args.skip_deps cmdline)
    /\ root_dir b' = root_dir b.
Proof.
  intros Hv. destruct b.
  unfold configure_builder, parse_arguments, parser_parse_args.
  rewrite Hv. destruct (valid_cases _ Hv) as [[Ha|Ha] [Hc|Hc]].
  all: run_pure; rewrite Ha, Hc; cbn.
  all: do 2 eexists; split; [reflexivity|]; repeat split.
Qed.

Lemma configure_builder_invalid {W : Type} cmdline b (w : W) :
  Args.valid cmdline = false ->
  configure_builder cmdline b w = mkResult (SystemExit 2) b w [].
Proof.
  intros Hv. unfold configure_builder, parse_arguments, parser_parse_args.
  now rewrite Hv.
Qed.





(** ** The platform test *)

Section Platform.
Context {W : Type} (env : Env W).

Lemma same_end_refl {A} (r : result W A) : same_end r r.
Proof. repeat split. Qed.

Lemma same_end_prepend {A} evs evs' (r r' : result W A) :
  same_end r r' -> same_end (prepend evs r) (prepend evs' r').
Proof.
  unfold same_end.
  now rewrite !prepend_outcome, !prepend_self, !prepend_world.
Qed.

Lemma same_end_bind {A B} (m m' : M W A) (k k' : A -> M W B) b w :
  same_end (m b w) (m' b w) ->
  (forall a b1 w1, same_end (k a b1 w1) (k' a b1 w1)) ->
  same_end (bind m k b w) (bind m' k' b w).
Proof.
  intros (Ho & Hb & Hw) Hk. rewrite !bind_eq.
  destruct (m b w) as [o b1 w1 evs], (m' b w) as [o' b1' w1' evs'].
  cbn in *. subst o' b1' w1'.
  destruct o as [a|c|e]; [|repeat split..].
  apply same_end_prepend, Hk.
Qed.

Lemma same_end_try {A} (body body' : M W A) handler b w :
  same_end (body b w) (body' b w) ->
  same_end (try_except body handler b w) (try_except body' handler b w).
Proof.
  intros (Ho & Hb & Hw). unfold try_except.
  destruct (body b w) as [o b1 w1 evs], (body' b w) as [o' b1' w1' evs'].
  cbn in *. subst o' b1' w1'.
  destruct o as [a|c|e]; [repeat split..|].
  destruct (handler e); [|repeat split].
  apply same_end_prepend, same_end_refl.
Qed.

(** Everything before the platform test is the same computation. *)
Lemma probe_tools_platform (name : string) :
  probe_tools (with_platform name env) = probe_tools env.
Proof. reflexivity. Qed.

(** The end of [check_prerequisites] returns normally on any platform. *)
Lemma platform_test_returns (name : string) b (w : W) :
  exists evs,
    ((if negb (name =? "Windows")%string
      then print platform_warning else ret tt) ;;
     print "✓ All prerequisites satisfied") b w
    = mkResult (Normal tt) b w
        (evs ++ [EPrint "✓ All prerequisites satisfied"])
    /\ evs = if (name =? "Windows")%string
             then [] else [EPrint platform_warning].
Proof.
  destruct (name =? "Windows")%string; eexists; split; reflexivity.
Qed.

Lemma check_prerequisites_platform_at (name : string) b w :
  check_prerequisites (with_platform name env) b w
  = match probe_tools env b w with
    | mkResult (Normal _) b' w' evs =>
        mkResult (Normal tt) b' w'
          (evs
           ++ (if (name =? "Windows")%string
               then [] else [EPrint platform_warning])
           ++ [EPrint "✓ All prerequisites satisfied"])
    | mkResult (SystemExit c) b' w' evs => mkResult (SystemExit c) b' w' evs
    | mkResult (Raised e) b' w' evs => mkResult (Raised e) b' w' evs
    end.
Proof.
  unfold check_prerequisites. rewrite bind_eq, (probe_tools_platform name).
  destruct (probe_tools env b w) as [[[]|c|e] b' w' evs]; trivial.
  cbn [platform_system with_platform].
  destruct (platform_test_returns name b' w') as (evs' & -> & ->).
  reflexivity.
Qed.

Lemma check_prerequisites_same_end (name : string) b w :
  same_end (check_prerequisites (with_platform name env) b w)
           (check_prerequisites (with_platform "Windows" env) b w).
Proof.
  rewrite (check_prerequisites_platform_at name).
  rewrite (check_prerequisites_platform_at "Windows").
  destruct (probe_tools env b w) as [[[]|c|e] b' w' evs]; repeat split.
Qed.

End Platform.

(** C9.  The platform name decides nothing but one printed line.  On a
    platform called [name], the prerequisite check ends with the same
    outcome, builder and world as on Windows; its output is the output on
    Windows with the warning inserted before the last line when [name] is
    not Windows; when the tools are there it returns normally and ends
    with "All prerequisites satisfied"; and the whole run ends with the
    same outcome, hence the same exit status, as on Windows. *)
Theorem platform_only_warns
  {W : Type} (env : Env W) (name : string) b w root script cmdline :
  let there := with_platform name env in
  let home := with_platform "Windows" env in
  let r := check_prerequisites there b w in
  let r0 := check_prerequisites home b w in
  same_end r r0
  /\ (exists evs,
        match res_outcome r with
        | Normal _ =>
            res_events r0 = (evs ++ [EPrint "✓ All prerequisites satisfied"])%list
            /\ res_events r
               = (evs
                  ++ (if (name =? "Windows")%string
                      then [] else [EPrint platform_warning])
                  ++ [EPrint "✓ All prerequisites satisfied"])%list
        | _ => res_events r0 = evs /\ res_events r = evs
        end)
  /\ same_end (main there root script cmdline w)
              (main home root script cmdline w)
  /\ exit_status (res_outcome (main there root script cmdline w))
     = exit_status (res_outcome (main home root script cmdline w)).
Proof.
  cbv zeta.
  assert (Hmain : same_end
                    (main (with_platform name env) root script cmdline w)
                    (main (with_platform "Windows" env) root script cmdline w)).
  { unfold main, run.
    apply same_end_bind; [apply same_end_refl|intros _ b1 w1].
    apply same_end_bind; [apply same_end_refl|intros _ b2 w2].
    apply same_end_try. unfold run_stages.
    apply same_end_bind; [apply same_end_refl|intros _ b3 w3].
    apply same_end_bind; [apply same_end_refl|intros _ b4 w4].
    apply same_end_bind; [apply check_prerequisites_same_end|intros _ b5 w5].
    apply same_end_refl. }
  split; [apply check_prerequisites_same_end|]. split; [|split].
  - rewrite (check_prerequisites_platform_at env name).
    rewrite (check_prerequisites_platform_at env "Windows").
    destruct (probe_tools env b w) as [[[]|c|e] b' w' evs];
      exists evs; cbn; split; reflexivity.
  - exact Hmain.
  - destruct Hmain as [-> _]. reflexivity.
Qed.

(** ** Exit status of the process *)

(** [run] lets no exception out: what its stages raise ends in
    [sys.exit(1)], so the process status is that of [exit_status]. *)
Lemma run_never_raises {W : Type} (env : Env W) cmdline b w e :
  res_outcome (run env cmdline b w) <> Raised e.
Proof.
  unfold run.
  rewrite bind_eq. unfold print at 1. cbn [prepend app].
  rewrite bind_eq. unfold print at 1. cbn [prepend app].
  rewrite !prepend_outcome. unfold try_except.
  destruct (run_stages env cmdline b w) as [[[]|c|x] b' w' evs];
    cbn; try discriminate.
  destruct x; cbn; discriminate.
Qed.

Lemma run_exit_status {W : Type} (env : Env W) cmdline b w :
  let r := run env cmdline b w in
  let stages := run_stages env cmdline b w in
  exit_status (res_outcome r) = exit_status (res_outcome stages).
Proof.
  cbv zeta. unfold run.
  rewrite bind_eq. unfold print at 1. cbn [prepend app].
  rewrite bind_eq. unfold print at 1. cbn [prepend app].
  rewrite !prepend_outcome. unfold try_except.
  destruct (run_stages env cmdline b w) as [[[]|c|x] b' w' evs];
    cbn; trivial.
  destruct x; reflexivity.
Qed.

(** ** Two complete runs *)

(** The default command line on a machine with every tool: package-manager
    strategy, install directory [install_x86_64], generator called with
    [-A x64] and a Release build, status 0. *)
Example default_run :
  let r := main Scenario.windows_pc "/ofiq" "/ofiq/scripts" Args.defaults
                ["/ofiq"] in
  res_outcome r = Normal tt
  /\ exit_status (res_outcome r) = 0
  /\ map (fun c => fst (fst c)) (calls (res_events r))
     = [ ["conan"; "--version"];
         ["cmake"; "--version"];
         conan_cmd Scenario.with_conan "conan";
         configure_cmd Scenario.with_conan;
         build_cmd Scenario.with_conan ]
  /\ In (EPrint ("  ✓ ofiq_lib.dll found: "
                 ++ "/ofiq/install_x86_64/Release/bin/ofiq_lib.dll"))
        (res_events r).
Proof. vm_compute. repeat split. auto 50. Qed.

(** [--no-conan --skip-deps] with no dependency tree at all: the dependency
    stage checks nothing and the run goes on to the generator. *)
Example skip_deps_run :
  let r := main Scenario.windows_pc "/ofiq" "/ofiq/scripts"
                (Args.mk "x64" 16 false true false true) ["/ofiq"] in
  res_outcome r = Normal tt
  /\ map (fun c => fst (fst c)) (calls (res_events r))
     = [ ["cmake"; "--version"];
         configure_cmd (set_skip_deps true Scenario.from_source);
         build_cmd (set_skip_deps true Scenario.from_source) ]
  /\ forallb (fun e => match e with
                       | EExists p _ => negb (String.prefix "/ofiq/extern" p)
                       | _ => true
                       end) (res_events r) = true.
Proof. vm_compute. repeat split. Qed.

(** The package-manager command line for x86 with Visual Studio 2022 in a
    Debug build. *)
Example conan_cmd_x86_vs2022 :
  conan_cmd (Scenario.configured (Args.mk "x86" 17 true false false false))
            "conan"
  = [ "conan"; "install"; "/ofiq/conan/conanfile.txt";
      "--build"; "missing";
      "--profile:build"; "/ofiq/conan/conan_profile_debug.txt";
      "--profile:host"; "/ofiq/conan/conan_profile_debug.txt";
      "--output-folder=/ofiq/build/conan";
      "-s:a"; "compiler.version=193"; "-s:a"; "arch=x86" ].
Proof. reflexivity. Qed.

(** The package-manager stage over an existing cache directory: the cache
    is removed before the package manager is started. *)
Example conan_stage_run :
  let r := build_dependencies Scenario.windows_pc Scenario.with_conan
             ["/ofiq"; "/ofiq/build/conan"; "/ofiq/build/conan/cache"] in
  res_outcome r = Normal tt
  /\ firstn 4 (res_events r)
     = [ EPrint (PyText.nl ++ "Building dependencies (Conan: True)...");
         EExists "/ofiq/build/conan" true;
         EPrint "  Cleaning Conan cache...";
         ERmtree "/ofiq/build/conan" ]
  /\ calls (res_events r)
     = [ (conan_cmd Scenario.with_conan "conan", Some "/ofiq", false) ]
  /\ Sim.present "/ofiq/build/conan/cache" (res_world r) = false.
Proof. vm_compute. repeat split. Qed.

(** * Further properties of the stages *)

(** ** The generator stage *)

(** [configure_cmake]: the build directory is asked for, removed when it
    exists and created again before anything else; when the removal or the
    creation raises, the generator is not started; otherwise the generator
    is started once, in the root directory, and a non-zero exit status of
    it ends the stage with [sys.exit(1)]. *)
Theorem configure_cmake_spec {W : Type} (env : Env W) b w :
  let r := configure_cmake env b w in
  let dir := build_dir b in
  let cmd := configure_cmd b in
  let stale := os_exists env dir w in
  let cleaned := if stale then os_rmtree env dir w else (None, w) in
  let head :=
    ([ EPrint (PyText.nl ++ "Configuring CMake...")%string;
       EExists dir stale ]
     ++ (if stale
         then [ EPrint ("  Removing existing build directory: " ++ dir)%string;
                ERmtree dir ]
         else []))%list in
  match fst cleaned with
  | Some e => r = mkResult (Raised e) b (snd cleaned) head
  | None =>
      let made := os_mkdir env dir (snd cleaned) in
      match fst made with
      | Some e =>
          r = mkResult (Raised e) b (snd made) (head ++ [EMkdir dir])
      | None =>
          let run := os_spawn env cmd (Some (root_dir b)) false (snd made) in
          res_self r = b /\ res_world r = snd run
          /\ res_outcome r
             = match fst run with
               | inr _ => Normal tt
               | inl (CalledProcessError _) => SystemExit 1
               | inl e => Raised e
               end
          /\ res_events r
             = (head
                ++ [ EMkdir dir;
                     EPrint ("  Running: " ++ Py.join " " cmd)%string;
                     ESpawn cmd (Some (root_dir b)) false (fst run) ]
                ++ match fst run with
                   | inr _ => [EPrint "  ✓ CMake configuration successful"]
                   | inl (CalledProcessError msg) =>
                       [EPrint ("  ✗ CMake configuration failed: "
                                ++ msg)%string]
                   | inl _ => []
                   end)%list
      end
  end.
Proof.
  cbv zeta. unfold configure_cmake. unfold_py. cbn.
  destruct (os_exists env (build_dir b) w); cbn.
  - destruct (os_rmtree env (build_dir b) w) as [[e|] w1]; cbn;
      [reflexivity|].
    destruct (os_mkdir env (build_dir b) w1) as [[e|] w2]; cbn;
      [reflexivity|].
    destruct (os_spawn env (configure_cmd b) (Some (root_dir b)) false w2)
      as [[[]|out] w3]; cbn; repeat split; reflexivity.
  - destruct (os_mkdir env (build_dir b) w) as [[e|] w2]; cbn;
      [reflexivity|].
    destruct (os_spawn env (configure_cmd b) (Some (root_dir b)) false w2)
      as [[[]|out] w3]; cbn; repeat split; reflexivity.
Qed.

(** ** The build stage *)

(** [build_project] asks nothing of the file system: it starts the build
    driver once, in the root directory, for the [install] target of the
    configured build type; a non-zero exit status ends the stage with
    [sys.exit(1)], any other exception of the subprocess is passed on. *)
Theorem build_project_spec {W : Type} (env : Env W) b w :
  let r := build_project env b w in
  let cmd :=
    [ "cmake"; "--build"; build_dir b; "--config"; config b;
      "--target"; "install"; "-j"; "8" ] in
  let run := os_spawn env cmd (Some (root_dir b)) false w in
  res_self r = b /\ res_world r = snd run
  /\ res_outcome r
     = match fst run with
       | inr _ => Normal tt
       | inl (CalledProcessError _) => SystemExit 1
       | inl e => Raised e
       end
  /\ res_events r
     = ([ EPrint (PyText.nl ++ "Building OFIQ project (" ++ config b
                  ++ ")...")%string;
          EPrint ("  Running: " ++ Py.join " " cmd)%string;
          ESpawn cmd (Some (root_dir b)) false (fst run) ]
        ++ match fst run with
           | inr _ => [EPrint "  ✓ OFIQ build successful"]
           | inl (CalledProcessError msg) =>
               [EPrint ("  ✗ OFIQ build failed: " ++ msg)%string]
           | inl _ => []
           end)%list.
Proof.
  cbv zeta. unfold build_project. unfold_py. cbn.
  change [ "cmake"; "--build"; build_dir b; "--config"; config b;
           "--target"; "install"; "-j"; "8" ] with (build_cmd b).
  destruct (os_spawn env (build_cmd b) (Some (root_dir b)) false w)
    as [[[]|out] w3]; cbn; repeat split; reflexivity.
Qed.

(** ** Verification reads only *)


(** ** Two more invariants of method bodies *)

Section Invariants.
Context {W : Type} (env : Env W).

Lemma bind_normal_inv {A B} (m : M W A) (k : A -> M W B) b w x :
  res_outcome (bind m k b w) = Normal x ->
  exists a b1 w1 evs1,
    m b w = mkResult (Normal a) b1 w1 evs1
    /\ bind m k b w = prepend evs1 (k a b1 w1)
    /\ res_outcome (k a b1 w1) = Normal x.
Proof.
  rewrite bind_eq. destruct (m b w) as [[a|c|e] b1 w1 evs1]; cbn;
    try discriminate.
  intros H. exists a, b1, w1, evs1. repeat split.
  now rewrite prepend_outcome in H.
Qed.

Lemma keeps_bind {A B} (m : M W A) (k : A -> M W B) :
  keeps_self m -> (forall a, keeps_self (k a)) -> keeps_self (bind m k).
Proof.
  intros Hm Hk b w. rewrite bind_eq. specialize (Hm b w).
  destruct (m b w) as [[a|c|e] b1 w1 evs1]; cbn in *; trivial.
  rewrite prepend_self, Hk. exact Hm.
Qed.

Lemma keeps_try {A} (body : M W A) handler :
  keeps_self body ->
  (forall e h, handler e = Some h -> keeps_self h) ->
  keeps_self (try_except body handler).
Proof.
  intros Hm Hh b w. unfold try_except. specialize (Hm b w).
  destruct (body b w) as [[a|c|e] b1 w1 evs1]; cbn in *; trivial.
  destruct (handler e) as [h|] eqn:E; cbn; trivial.
  rewrite prepend_self, (Hh _ _ E). exact Hm.
Qed.

Lemma keeps_ret {A} (a : A) : keeps_self (ret (W:=W) a).
Proof. intros b w; reflexivity. Qed.

Lemma keeps_sys_exit {A} c : keeps_self (sys_exit (W:=W) (A:=A) c).
Proof. intros b w; reflexivity. Qed.

Lemma keeps_attr {A} (f : OFIQBuilder -> A) : keeps_self (attr (W:=W) f).
Proof. intros b w; reflexivity. Qed.

Lemma keeps_attr_opt {A} name (f : OFIQBuilder -> option A) :
  keeps_self (attr_opt (W:=W) name f).
Proof. intros b w; unfold attr_opt; destruct (f b); reflexivity. Qed.

Lemma keeps_print line : keeps_self (print (W:=W) line).
Proof. intros b w; reflexivity. Qed.

Lemma keeps_spawn cmd cwd shell :
  keeps_self (subprocess_run env cmd cwd shell).
Proof.
  intros b w. unfold subprocess_run.
  now destruct (os_spawn env cmd cwd shell w).
Qed.

Lemma keeps_exists p : keeps_self (path_exists env p).
Proof. intros b w; reflexivity. Qed.

Lemma keeps_rmtree p : keeps_self (rmtree env p).
Proof. intros b w. unfold rmtree. now destruct (os_rmtree env p w). Qed.

Lemma keeps_mkdir p : keeps_self (mkdir env p).
Proof. intros b w. unfold mkdir. now destruct (os_mkdir env p w). Qed.

Lemma keeps_iterdir p : keeps_self (iterdir_names env p).
Proof. intros b w; reflexivity. Qed.

Lemma keeps_stat p : keeps_self (stat_size env p).
Proof. intros b w; reflexivity. Qed.

Lemma exits_bind {A B} (m : M W A) (k : A -> M W B) :
  exits_with_one m -> (forall a, exits_with_one (k a)) ->
  exits_with_one (bind m k).
Proof.
  intros Hm Hk b w c. rewrite bind_eq. specialize (Hm b w).
  destruct (m b w) as [[a|c1|e] b1 w1 evs1]; cbn in *;
    [|intros H; injection H as <-; now apply Hm|discriminate].
  rewrite prepend_outcome. apply Hk.
Qed.

Lemma exits_try {A} (body : M W A) handler :
  exits_with_one body ->
  (forall e h, handler e = Some h -> exits_with_one h) ->
  exits_with_one (try_except body handler).
Proof.
  intros Hm Hh b w c. unfold try_except. specialize (Hm b w).
  destruct (body b w) as [[a|c1|e] b1 w1 evs1]; cbn in *;
    [discriminate|auto|].
  destruct (handler e) as [h|] eqn:E; cbn; [|discriminate].
  rewrite prepend_outcome. apply (Hh _ _ E).
Qed.

Lemma exits_ret {A} (a : A) : exits_with_one (ret (W:=W) a).
Proof. intros b w c; discriminate. Qed.

Lemma exits_sys_exit_one {A} : exits_with_one (sys_exit (W:=W) (A:=A) 1).
Proof. intros b w c H. now injection H as <-. Qed.

Lemma exits_attr {A} (f : OFIQBuilder -> A) : exits_with_one (attr (W:=W) f).
Proof. intros b w c; discriminate. Qed.

Lemma exits_attr_opt {A} name (f : OFIQBuilder -> option A) :
  exits_with_one (attr_opt (W:=W) name f).
Proof. intros b w c; unfold attr_opt; destruct (f b); discriminate. Qed.

Lemma exits_assign f : exits_with_one (assign (W:=W) f).
Proof. intros b w c; discriminate. Qed.

Lemma exits_print line : exits_with_one (print (W:=W) line).
Proof. intros b w c; discriminate. Qed.

Lemma exits_spawn cmd cwd shell :
  exits_with_one (subprocess_run env cmd cwd shell).
Proof.
  intros b w c. unfold subprocess_run.
  destruct (os_spawn env cmd cwd shell w) as [[e|out] w1]; discriminate.
Qed.

Lemma exits_exists p : exits_with_one (path_exists env p).
Proof. intros b w c; discriminate. Qed.

Lemma exits_rmtree p : exits_with_one (rmtree env p).
Proof.
  intros b w c. unfold rmtree.
  destruct (os_rmtree env p w) as [[e|] w1]; discriminate.
Qed.

Lemma exits_mkdir p : exits_with_one (mkdir env p).
Proof.
  intros b w c. unfold mkdir.
  destruct (os_mkdir env p w) as [[e|] w1]; discriminate.
Qed.

Lemma exits_iterdir p : exits_with_one (iterdir_names env p).
Proof.
  intros b w c. unfold iterdir_names.
  destruct (os_iterdir env p w); discriminate.
Qed.

Lemma exits_stat p : exits_with_one (stat_size env p).
Proof.
  intros b w c. unfold stat_size.
  destruct (os_stat_size env p w); discriminate.
Qed.

End Invariants.

Ltac keeps_step :=
  lazymatch goal with
  | |- keeps_self (bind _ _) => apply keeps_bind; [|intro]
  | |- keeps_self (try_except _ _) =>
      apply keeps_try;
      [|let e := fresh "e" in let h := fresh "h" in let E := fresh "E" in
        intros e h E; destruct e; inversion E; subst; clear E]
  | |- keeps_self (if ?c then _ else _) => destruct c
  | |- keeps_self (let '(_, _) := ?c in _) => destruct c
  | |- keeps_self (ret _) => apply keeps_ret
  | |- keeps_self (sys_exit _) => apply keeps_sys_exit
  | |- keeps_self (attr _) => apply keeps_attr
  | |- keeps_self (attr_opt _ _) => apply keeps_attr_opt
  | |- keeps_self (print _) => apply keeps_print
  | |- keeps_self (subprocess_run _ _ _ _) => apply keeps_spawn
  | |- keeps_self (path_exists _ _) => apply keeps_exists
  | |- keeps_self (rmtree _ _) => apply keeps_rmtree
  | |- keeps_self (mkdir _ _) => apply keeps_mkdir
  | |- keeps_self (iterdir_names _ _) => apply keeps_iterdir
  | |- keeps_self (stat_size _ _) => apply keeps_stat
  end.

Ltac exits_step :=
  lazymatch goal with
  | |- exits_with_one (bind _ _) => apply exits_bind; [|intro]
  | |- exits_with_one (try_except _ _) =>
      apply exits_try;
      [|let e := fresh "e" in let h := fresh "h" in let E := fresh "E" in
        intros e h E; destruct e; inversion E; subst; clear E]
  | |- exits_with_one (if ?c then _ else _) => destruct c
  | |- exits_with_one (let '(_, _) := ?c in _) => destruct c
  | |- exits_with_one (ret _) => apply exits_ret
  | |- exits_with_one (sys_exit 1) => apply exits_sys_exit_one
  | |- exits_with_one (attr _) => apply exits_attr
  | |- exits_with_one (attr_opt _ _) => apply exits_attr_opt
  | |- exits_with_one (assign _) => apply exits_assign
  | |- exits_with_one (print _) => apply exits_print
  | |- exits_with_one (subprocess_run _ _ _ _) => apply exits_spawn
  | |- exits_with_one (path_exists _ _) => apply exits_exists
  | |- exits_with_one (rmtree _ _) => apply exits_rmtree
  | |- exits_with_one (mkdir _ _) => apply exits_mkdir
  | |- exits_with_one (iterdir_names _ _) => apply exits_iterdir
  | |- exits_with_one (stat_size _ _) => apply exits_stat
  end.

Lemma build_dependencies_keeps_self {W : Type} (env : Env W) :
  keeps_self (build_dependencies env).
Proof.
  unfold build_dependencies, _build_with_conan, _build_from_source,
    source_trees_check, build_opencv, build_googletest, build_onnxruntime,
    except_called.
  repeat keeps_step.
Qed.

Lemma configure_cmake_keeps_self {W : Type} (env : Env W) :
  keeps_self (configure_cmake env).
Proof. unfold configure_cmake, except_called. repeat keeps_step. Qed.

Lemma build_project_keeps_self {W : Type} (env : Env W) :
  keeps_self (build_project env).
Proof. unfold build_project, except_called. repeat keeps_step. Qed.

Lemma verify_build_keeps_self {W : Type} (env : Env W) :
  keeps_self (verify_build env).
Proof. unfold verify_build. repeat keeps_step. Qed.




Lemma verify_build_exits {W : Type} (env : Env W) :
  exits_with_one (verify_build env).
Proof. unfold verify_build. repeat exits_step. Qed.

(** ** The two loops of the prerequisite check *)

Lemma set_conan_path_twice p q b :
  set_conan_path q (set_conan_path p b) = set_conan_path q b.
Proof. now destruct b. Qed.

Section Loops.
Context {W : Type} (env : Env W).

(** One turn of the [for conan_path in conan_paths] loop. *)
Lemma conan_fallback_loop_cons p rest b w :
  conan_fallback_loop env (p :: rest) b w
  = if os_exists env p w then
      match os_spawn env [p; "--version"] None false w with
      | (inr out, w1) =>
          mkResult (Normal true) (set_conan_path p b) w1
            [ EExists p true;
              ESpawn [p; "--version"] None false (inr out);
              EPrint ("  ✓ conan: " ++ PyText.strip out
                      ++ " (found at " ++ p ++ ")") ]
      | (inl e, w1) =>
          if is_caught e then
            prepend [ EExists p true;
                      ESpawn [p; "--version"] None false (inl e) ]
                    (conan_fallback_loop env rest (set_conan_path p b) w1)
          else
            mkResult (Raised e) (set_conan_path p b) w1
              [ EExists p true;
                ESpawn [p; "--version"] None false (inl e) ]
      end
    else prepend [EExists p false] (conan_fallback_loop env rest b w).
Proof.
  cbn [conan_fallback_loop]. unfold_py.
  destruct (os_exists env p w); cbn.
  - destruct (os_spawn env [p; "--version"] None false w)
      as [[[]|out] w1]; cbn; trivial.
    all: destruct (conan_fallback_loop env rest (set_conan_path p b) w1)
      as [[[]|?|?] ? ? ?]; reflexivity.
  - destruct (conan_fallback_loop env rest b w) as [[[]|?|?] ? ? ?];
      reflexivity.
Qed.

(** One turn of the [for tool in required_tools] loop. *)
Lemma check_tools_cons tool rest acc b w :
  check_tools env (tool :: rest) acc b w
  = match os_spawn env [tool; "--version"] None false w with
    | (inr out, w1) =>
        prepend [ ESpawn [tool; "--version"] None false (inr out);
                  EPrint ("  ✓ " ++ tool ++ ": " ++ PyText.first_line out) ]
                (check_tools env rest acc b w1)
    | (inl e, w1) =>
        if is_caught e then
          prepend [ ESpawn [tool; "--version"] None false (inl e);
                    EPrint ("  ✗ " ++ tool ++ ": Not found") ]
                  (check_tools env rest (acc ++ [tool]) b w1)
        else
          mkResult (Raised e) b w1
            [ESpawn [tool; "--version"] None false (inl e)]
    end.
Proof.
  cbn [check_tools]. unfold_py.
  destruct (os_spawn env [tool; "--version"] None false w)
    as [[[]|out] w1]; cbn; trivial.
Qed.

End Loops.

Section LoopSpecs.
Context {W : Type} (env : Env W).

Lemma check_tools_inv tools acc b w :
  let r := check_tools env tools acc b w in
  res_self r = b
  /\ (exists k, calls (res_events r) = firstn k (map probe tools))
  /\ match res_outcome r with
     | Normal missing =>
         calls (res_events r) = map probe tools
         /\ missing = (acc ++ failed_tools (res_events r))%list
     | SystemExit _ => False
     | Raised e => is_caught e = false
     end.
Proof.
  cbv zeta. revert acc b w.
  induction tools as [|tool rest IH]; intros acc b w.
  - cbn. split; [reflexivity|]. split; [now exists 0%nat|].
    split; [reflexivity|]. now rewrite app_nil_r.
  - rewrite check_tools_cons.
    destruct (os_spawn env [tool; "--version"] None false w)
      as [[e|out] w1].
    + destruct (is_caught e) eqn:Hc.
      * destruct (IH (acc ++ [tool])%list b w1) as (Hs & [k Hk] & Ho).
        rewrite prepend_self, prepend_events, prepend_outcome.
        cbn [app calls failed_tools]. split; [exact Hs|]. split.
        { exists (S k). cbn. now rewrite Hk. }
        destruct (res_outcome (check_tools env rest (acc ++ [tool]) b w1))
          as [missing|c|x]; trivial.
        destruct Ho as [Hcalls ->]. split.
        { cbn. now rewrite Hcalls. }
        now rewrite <- app_assoc.
      * cbn. split; [reflexivity|]. split; [now exists 1%nat|exact Hc].
    + destruct (IH acc b w1) as (Hs & [k Hk] & Ho).
      rewrite prepend_self, prepend_events, prepend_outcome.
      cbn [app calls failed_tools]. split; [exact Hs|]. split.
      { exists (S k). cbn. now rewrite Hk. }
      destruct (res_outcome (check_tools env rest acc b w1))
        as [missing|c|x]; trivial.
      destruct Ho as [Hcalls ->]. split; [|reflexivity].
      cbn. now rewrite Hcalls.
Qed.

Lemma conan_fallback_loop_inv paths b w :
  let r := conan_fallback_loop env paths b w in
  success_is_last (res_events r) = true
  /\ (forall cmd cwd shell res,
        In (ESpawn cmd cwd shell res) (res_events r) ->
        exists p, In p paths /\ cmd = [p; "--version"]
                  /\ In (EExists p true) (res_events r))
  /\ match res_outcome r with
     | Normal true =>
         exists p out,
           In p paths /\ res_self r = set_conan_path p b
           /\ In (ESpawn [p; "--version"] None false (inr out))
                 (res_events r)
     | Normal false =>
         existsb spawn_succeeded (res_events r) = false
         /\ (forall p, In p paths ->
             exists res, In (EExists p res) (res_events r))
     | SystemExit _ => False
     | Raised e =>
         is_caught e = false
         /\ existsb spawn_succeeded (res_events r) = false
     end.
Proof.
  cbv zeta. revert b w.
  induction paths as [|p rest IH]; intros b w.
  - cbn. split; [reflexivity|]. split; [intros ? ? ? ? []|].
    split; [reflexivity|intros ? []].
  - rewrite conan_fallback_loop_cons.
    destruct (os_exists env p w) eqn:Hp.
    + destruct (os_spawn env [p; "--version"] None false w)
        as [[e|out] w1].
      * destruct (is_caught e) eqn:Hc.
        -- destruct (IH (set_conan_path p b) w1) as (Hl & Hprobe & Ho).
           rewrite prepend_events, prepend_outcome, prepend_self.
           cbn [app success_is_last spawn_succeeded existsb orb].
           split; [exact Hl|]. split.
           { intros cmd cwd shell res [H|[H|H]]; [discriminate| |].
             - injection H as <- <- <- <-. exists p. cbn. auto.
             - destruct (Hprobe _ _ _ _ H) as (q & Hq & -> & Hin).
               exists q. cbn. auto. }
           destruct (res_outcome
                       (conan_fallback_loop env rest (set_conan_path p b) w1))
             as [[|]|c|x]; trivial.
           ++ destruct Ho as (q & out & Hq & -> & Hin).
              exists q, out. rewrite set_conan_path_twice. cbn. auto.
           ++ destruct Ho as [Hn Hall]. split; [exact Hn|].
              intros q [<-|Hq]; [exists true; cbn; auto|].
              destruct (Hall q Hq) as [res Hres]. exists res. cbn. auto.
        -- cbn. split; [reflexivity|]. split; [|now split].
           intros cmd cwd shell res [H|[H|[]]]; [discriminate|].
           injection H as <- <- <- <-. exists p. auto.
      * cbn. split; [reflexivity|]. split.
        { intros cmd cwd shell res [H|[H|[H|[]]]]; try discriminate.
          injection H as <- <- <- <-. exists p. auto. }
        exists p, out. auto.
    + destruct (IH b w) as (Hl & Hprobe & Ho).
      rewrite prepend_events, prepend_outcome, prepend_self.
      cbn [app success_is_last spawn_succeeded existsb orb].
      split; [exact Hl|]. split.
      { intros cmd cwd shell res [H|H]; [discriminate|].
        destruct (Hprobe _ _ _ _ H) as (q & Hq & -> & Hin).
        exists q. cbn. auto. }
      destruct (res_outcome (conan_fallback_loop env rest b w))
        as [[|]|c|x]; trivial.
      * destruct Ho as (q & out & Hq & -> & Hin). exists q, out. cbn. auto.
      * destruct Ho as [Hn Hall]. split; [exact Hn|].
        intros q [<-|Hq]; [exists false; cbn; auto|].
        destruct (Hall q Hq) as [res Hres]. exists res. cbn. auto.
Qed.

(** The required-tools loop, for any list of tools: the builder is left
    alone, the tools are probed once each in the order of the list, a tool
    that does not answer does not stop the loop, and the list returned is
    the list received followed by exactly the tools whose probe raised; an
    exception the loop does not catch ends it at that probe. *)
Theorem check_tools_spec tools acc b w :
  let r := check_tools env tools acc b w in
  res_self r = b
  /\ (exists k, calls (res_events r) = firstn k (map probe tools))
  /\ match res_outcome r with
     | Normal missing =>
         calls (res_events r) = map probe tools
         /\ missing = (acc ++ failed_tools (res_events r))%list
     | SystemExit _ => False
     | Raised e => is_caught e = false
     end.
Proof. apply check_tools_inv. Qed.

(** The search over the fallback locations, for any list of locations: a
    location is probed only after it was seen to exist; nothing is probed
    after a probe that answered; when the search succeeds the builder's
    [conan_path] is the location that answered; when it fails every
    location was looked at and no probe answered; the loop itself never
    calls [sys.exit]. *)
Theorem conan_fallback_first_wins paths b w :
  let r := conan_fallback_loop env paths b w in
  success_is_last (res_events r) = true
  /\ (forall cmd cwd shell res,
        In (ESpawn cmd cwd shell res) (res_events r) ->
        exists p, In p paths /\ cmd = [p; "--version"]
                  /\ In (EExists p true) (res_events r))
  /\ match res_outcome r with
     | Normal true =>
         exists p out,
           In p paths /\ res_self r = set_conan_path p b
           /\ In (ESpawn [p; "--version"] None false (inr out))
                 (res_events r)
     | Normal false =>
         existsb spawn_succeeded (res_events r) = false
         /\ (forall p, In p paths ->
             exists res, In (EExists p res) (res_events r))
     | SystemExit _ => False
     | Raised e =>
         is_caught e = false
         /\ existsb spawn_succeeded (res_events r) = false
     end.
Proof. apply conan_fallback_loop_inv. Qed.

End LoopSpecs.

(** ** The package-manager search and the state it leaves *)

Lemma success_is_last_app_quiet l1 l2 :
  success_is_last l1 = true -> forallb quiet l2 = true ->
  success_is_last (l1 ++ l2) = true.
Proof.
  intros H1 H2. induction l1 as [|e l1 IH]; cbn in *.
  - induction l2 as [|[] l2 IH2]; cbn in *; trivial; try discriminate;
      auto.
  - destruct (spawn_succeeded e); [|auto].
    rewrite forallb_app, H1, H2. reflexivity.
Qed.

Section ConanSearch.
Context {W : Type} (env : Env W).

(** [check_conan] by the answer of the probe on the search path. *)
Lemma check_conan_eq b w :
  check_conan env b w
  = match os_spawn env ["conan"; "--version"] None false w with
    | (inr out, w1) =>
        mkResult (Normal tt) (set_conan_path "conan" b) w1
          [ ESpawn ["conan"; "--version"] None false (inr out);
            EPrint ("  ✓ conan: " ++ PyText.strip out) ]
    | (inl e, w1) =>
        if is_caught e then
          prepend [ESpawn ["conan"; "--version"] None false (inl e)]
            (match conan_fallback_loop env conan_paths b w1 with
             | mkResult (Normal true) b2 w2 evs => mkResult (Normal tt) b2 w2 evs
             | mkResult (Normal false) b2 w2 evs =>
                 mkResult (SystemExit 1) b2 w2
                   (evs
                    ++ [ EPrint
                           "  ✗ conan: Not found in PATH or common locations";
                         EPrint ("  Please ensure conan is installed and "
                                 ++ "available in PATH, or specify the path "
                                 ++ "manually") ])
             | mkResult (SystemExit c) b2 w2 evs =>
                 mkResult (SystemExit c) b2 w2 evs
             | mkResult (Raised x) b2 w2 evs => mkResult (Raised x) b2 w2 evs
             end)
        else mkResult (Raised e) b w1
               [ESpawn ["conan"; "--version"] None false (inl e)]
    end.
Proof.
  unfold check_conan, try_except, except_called_or_not_found.
  rewrite bind_eq. unfold subprocess_run.
  destruct (os_spawn env ["conan"; "--version"] None false w)
    as [[[]|out] w1]; cbn [prepend is_caught app]; trivial.
  all: rewrite bind_eq;
    destruct (conan_fallback_loop env conan_paths b w1)
      as [[[]|c|x] b2 w2 evs]; cbn; rewrite ?app_nil_r; reflexivity.
Qed.

Lemma check_conan_inv b w :
  let r := check_conan env b w in
  success_is_last (res_events r) = true
  /\ (forall cmd cwd shell res,
        In (ESpawn cmd cwd shell res) (res_events r) ->
        cmd = ["conan"; "--version"]
        \/ exists p, In p conan_paths /\ cmd = [p; "--version"]
                     /\ In (EExists p true) (res_events r))
  /\ match res_outcome r with
     | Normal _ =>
         exists p out,
           (p = "conan" \/ In p conan_paths)
           /\ res_self r = set_conan_path p b
           /\ In (ESpawn [p; "--version"] None false (inr out))
                 (res_events r)
     | SystemExit c =>
         c = 1
         /\ existsb spawn_succeeded (res_events r) = false
         /\ (forall p, In p conan_paths ->
             exists res, In (EExists p res) (res_events r))
     | Raised e =>
         is_caught e = false
         /\ existsb spawn_succeeded (res_events r) = false
     end
  /\ (forall out, fst (os_spawn env ["conan"; "--version"] None false w)
                  = inr out ->
      calls (res_events r) = [probe "conan"]
      /\ forallb (fun e => match e with EExists _ _ => false | _ => true end)
                 (res_events r) = true
      /\ res_self r = set_conan_path "conan" b).
Proof.
  cbv zeta. rewrite check_conan_eq.
  destruct (os_spawn env ["conan"; "--version"] None false w)
    as [[e|out] w1].
  - destruct (is_caught e) eqn:Hc.
    + pose proof (conan_fallback_loop_inv env conan_paths b w1)
        as (Hl & Hprobe & Ho).
      destruct (conan_fallback_loop env conan_paths b w1)
        as [[[]|c|x] b2 w2 evs]; cbn in Hl, Hprobe, Ho |- *.
      * split; [exact Hl|]. split.
        { intros cmd cwd shell res [H|H]; [injection H; auto|].
          destruct (Hprobe _ _ _ _ H) as (q & Hq & -> & Hin).
          right. exists q. auto. }
        split; [|discriminate].
        destruct Ho as (q & out & Hq & -> & Hin). exists q, out. auto.
      * destruct Ho as [Hn Hall]. split.
        { now apply success_is_last_app_quiet. }
        split.
        { intros cmd cwd shell res [H|H]; [injection H; auto|].
          apply in_app_or in H as [H|[H|[H|[]]]]; try discriminate.
          destruct (Hprobe _ _ _ _ H) as (q & Hq & -> & Hin).
          right. exists q. repeat split; trivial.
          right. apply in_or_app. now left. }
        split; [|discriminate]. split; [reflexivity|]. split.
        { rewrite existsb_app, Hn. reflexivity. }
        intros q Hq. destruct (Hall q Hq) as [res Hres]. exists res.
        right. apply in_or_app. now left.
      * destruct Ho.
      * split; [exact Hl|]. split.
        { intros cmd cwd shell res [H|H]; [injection H; auto|].
          destruct (Hprobe _ _ _ _ H) as (q & Hq & -> & Hin).
          right. exists q. auto. }
        split; [exact Ho|discriminate].
    + cbn. split; [reflexivity|]. split.
      { intros cmd cwd shell res [H|[]]. injection H; auto. }
      split; [now split|discriminate].
  - cbn. split; [reflexivity|]. split.
    { intros cmd cwd shell res [H|[H|[]]]; [injection H; auto|discriminate]. }
    split; [exists "conan", out; auto|].
    intros out' _. repeat split.
Qed.

End ConanSearch.

Section PrerequisitesShape.
Context {W : Type} (env : Env W).

(** [check_prerequisites] by the end of the package-manager block and of
    the required-tools loop. *)
Lemma check_prerequisites_eq b w :
  check_prerequisites env b w
  = match (if use_conan b then check_conan env else ret tt) b w with
    | mkResult (Normal _) b1 w1 evs1 =>
        match check_tools env required_tools [] b1 w1 with
        | mkResult (Normal missing) b2 w2 evs2 =>
            if Py.nonempty missing then
              mkResult (SystemExit 1) b2 w2
                (EPrint "Checking prerequisites..."
                 :: evs1 ++ evs2
                 ++ [ EPrint (PyText.nl ++ "Error: Missing required tools: "
                              ++ Py.join ", " missing);
                      EPrint "Please install the missing tools and try again."
                    ])
            else
              mkResult (Normal tt) b2 w2
                (EPrint "Checking prerequisites..."
                 :: evs1 ++ evs2
                 ++ (if negb (platform_system env =? "Windows")%string
                     then [EPrint platform_warning] else [])
                 ++ [EPrint "✓ All prerequisites satisfied"])
        | mkResult (SystemExit c) b2 w2 evs2 =>
            mkResult (SystemExit c) b2 w2
              (EPrint "Checking prerequisites..." :: evs1 ++ evs2)
        | mkResult (Raised x) b2 w2 evs2 =>
            mkResult (Raised x) b2 w2
              (EPrint "Checking prerequisites..." :: evs1 ++ evs2)
        end
    | mkResult (SystemExit c) b1 w1 evs1 =>
        mkResult (SystemExit c) b1 w1
          (EPrint "Checking prerequisites..." :: evs1)
    | mkResult (Raised x) b1 w1 evs1 =>
        mkResult (Raised x) b1 w1 (EPrint "Checking prerequisites..." :: evs1)
    end.
Proof.
  unfold check_prerequisites, probe_tools.
  rewrite !bind_eq. unfold print at 1. cbn [prepend app].
  rewrite bind_eq. unfold attr at 1. cbn [prepend app].
  rewrite bind_eq.
  destruct ((if use_conan b then check_conan env else ret tt) b w)
    as [[[]|c|x] b1 w1 evs1]; cbn [prepend app]; trivial.
  rewrite bind_eq.
  destruct (check_tools env required_tools [] b1 w1)
    as [[missing|c|x] b2 w2 evs2]; cbn [prepend app]; trivial.
  destruct (Py.nonempty missing); cbn; [reflexivity|].
  destruct (negb (platform_system env =? "Windows")%string); cbn;
    rewrite ?app_nil_r, <- ?app_assoc; reflexivity.
Qed.

Lemma check_prerequisites_exits : exits_with_one (check_prerequisites env).
Proof.
  intros b w c. rewrite check_prerequisites_eq.
  assert (Hconan : forall c1, res_outcome
            ((if use_conan b then check_conan env else ret tt) b w)
            = SystemExit c1 -> c1 = 1).
  { intros c1. destruct (use_conan b); [|discriminate].
    pose proof (check_conan_inv env b w) as (_ & _ & Ho & _).
    intros H. rewrite H in Ho. apply Ho. }
  destruct ((if use_conan b then check_conan env else ret tt) b w)
    as [[[]|c1|x] b1 w1 evs1]; cbn [res_outcome] in *.
  - pose proof (check_tools_inv env required_tools [] b1 w1) as (_ & _ & Ho).
    destruct (check_tools env required_tools [] b1 w1)
      as [[missing|c2|x] b2 w2 evs2]; cbn [res_outcome] in *.
    + destruct (Py.nonempty missing); cbn; intros H;
        [now injection H as <-|discriminate H].
    + destruct Ho.
    + discriminate.
  - intros H. injection H as <-. now apply Hconan.
  - discriminate.
Qed.

Lemma check_prerequisites_normal_inv b w :
  let r := check_prerequisites env b w in
  res_outcome r = Normal tt ->
  (if use_conan b
   then exists p out,
          (p = "conan" \/ In p conan_paths)
          /\ res_self r = set_conan_path p b
          /\ In (ESpawn [p; "--version"] None false (inr out))
                (res_events r)
   else res_self r = b)
  /\ (exists out,
        In (ESpawn ["cmake"; "--version"] None false (inr out))
           (res_events r)).
Proof.
  cbv zeta. rewrite check_prerequisites_eq.
  pose proof (check_conan_inv env b w) as (_ & _ & Hconan & _).
  destruct ((if use_conan b then check_conan env else ret tt) b w)
    as [[[]|c1|x] b1 w1 evs1] eqn:Hblock; try discriminate.
  unfold required_tools. rewrite check_tools_cons.
  destruct (os_spawn env ["cmake"; "--version"] None false w1)
    as [[e|out] w2].
  - destruct (is_caught e); cbn; discriminate.
  - cbn. intros _. split.
    + destruct (use_conan b).
      * rewrite Hblock in Hconan. cbn in Hconan.
        destruct Hconan as (p & out' & Hp & -> & Hin).
        exists p, out'. repeat split; trivial.
        right. apply in_or_app. now left.
      * cbn in Hblock. now injection Hblock as <- _ _.
    + exists out. right. apply in_or_app. right. now left.
Qed.

End PrerequisitesShape.

(** ** Exit statuses of a run *)


Lemma run_stages_split {W : Type} (env : Env W) cmdline b w :
  run_stages env cmdline b w
  = bind (configure_builder cmdline)
         (fun _ => check_prerequisites env ;; after_prerequisites env) b w.
Proof. apply run_stages_eq. Qed.

Lemma run_outcome {W : Type} (env : Env W) cmdline b w :
  res_outcome (run env cmdline b w)
  = match res_outcome (run_stages env cmdline b w) with
    | Raised _ => SystemExit 1
    | o => o
    end.
Proof.
  unfold run.
  rewrite bind_eq. unfold print at 1. cbn [prepend app].
  rewrite bind_eq. unfold print at 1. cbn [prepend app].
  rewrite !prepend_outcome. unfold try_except.
  destruct (run_stages env cmdline b w) as [[[]|c|x] b' w' evs];
    cbn; trivial.
  destruct x; reflexivity.
Qed.




(** ** The stages after the prerequisite check *)

Section Stages.
Context {W : Type} (env : Env W).

Lemma disciplined_mkdir h p b w :
  disciplined h [] (mkdir env p b w).
Proof.
  unfold mkdir. destruct (os_mkdir env p w) as [[e|] w'].
  all: apply disciplined_quiet; [reflexivity|discriminate].
Qed.

Lemma disciplined_attr_opt {A} h name (f : OFIQBuilder -> option A) b w :
  disciplined h [] (attr_opt (W:=W) name f b w).
Proof.
  unfold attr_opt. destruct (f b).
  all: apply disciplined_quiet; [reflexivity|discriminate].
Qed.

Lemma disciplined_raised {A} h (r : result W A) e :
  res_outcome r = Raised e -> forallb quiet (res_events r) = true ->
  forall steps, disciplined h steps r.
Proof.
  intros Ho Hq steps. split.
  - exists 0%nat. now apply quiet_calls.
  - now apply no_failure_is_last, quiet_no_failure.
  - intros a Ha. congruence.
  - intros cmd cwd shell e' Hin. apply failed_in_events in Hin.
    rewrite quiet_no_failure in Hin by trivial. discriminate.
  - intros c Hc. congruence.
Qed.

Lemma build_with_conan_disciplined b w :
  disciplined called_process_exits
    match conan_path b with
    | Some conan => [(conan_cmd b conan, Some (root_dir b), false)]
    | None => []
    end
    (_build_with_conan env b w).
Proof.
  unfold _build_with_conan.
  eapply (disciplined_bind _ []);
    [apply disciplined_attr|intros self [= <-]].
  cbn [attr res_self res_world]. unfold id.
  eapply (disciplined_bind _ []); [apply disciplined_exists|intros cached _].
  cbn [path_exists res_self res_world].
  eapply (disciplined_bind _ []).
  { destruct cached; [|apply disciplined_ret].
    eapply (disciplined_bind _ [] []); [apply disciplined_print|intros _ _].
    apply disciplined_rmtree. }
  intros _ _.
  match goal with
  | |- context [res_self (?m b w)] =>
      assert (Hk : keeps_self m) by (destruct cached; repeat keeps_step);
      rewrite (Hk b w); clear Hk
  end.
  rewrite bind_eq. unfold attr_opt.
  destruct (conan_path b) as [conan|].
  - cbn [prepend app]. rewrite prepend_nil.
    eapply (disciplined_bind _ []); [apply disciplined_print|intros _ _].
    apply disciplined_try.
    eapply (disciplined_bind _ [_] []); [apply disciplined_spawn|intros _ _].
    apply disciplined_print.
  - eapply disciplined_raised; reflexivity.
Qed.

Lemma build_dependencies_disciplined b w :
  disciplined called_process_exits (dependency_steps b)
              (build_dependencies env b w).
Proof.
  unfold build_dependencies, dependency_steps.
  rewrite bind_eq. unfold attr_opt.
  destruct (skip_deps b) as [[|]|]; cbn [prepend app].
  - rewrite prepend_nil.
    eapply (disciplined_bind _ [] []); [apply disciplined_print|intros _ _].
    apply disciplined_print.
  - rewrite prepend_nil, bind_eq. unfold attr. cbn [prepend app].
    rewrite prepend_nil.
    destruct (use_conan b).
    + eapply (disciplined_bind _ []); [apply disciplined_print|intros _ _].
      apply build_with_conan_disciplined.
    + eapply (disciplined_bind _ []); [apply disciplined_print|intros _ _].
      apply build_from_source_disciplined.
  - eapply disciplined_raised; reflexivity.
Qed.

Lemma configure_cmake_disciplined b w :
  disciplined called_process_exits
    [(configure_cmd b, Some (root_dir b), false)]
    (configure_cmake env b w).
Proof.
  unfold configure_cmake.
  eapply (disciplined_bind _ []);
    [apply disciplined_attr|intros self [= <-]].
  cbn [attr res_self res_world]. unfold id.
  eapply (disciplined_bind _ []); [apply disciplined_print|intros _ _].
  eapply (disciplined_bind _ []); [apply disciplined_exists|intros stale _].
  eapply (disciplined_bind _ []).
  { destruct stale; [|apply disciplined_ret].
    eapply (disciplined_bind _ [] []); [apply disciplined_print|intros _ _].
    apply disciplined_rmtree. }
  intros _ _.
  eapply (disciplined_bind _ []); [apply disciplined_mkdir|intros _ _].
  eapply (disciplined_bind _ []); [apply disciplined_print|intros _ _].
  apply disciplined_try.
  eapply (disciplined_bind _ [_] []); [apply disciplined_spawn|intros _ _].
  apply disciplined_print.
Qed.

Lemma build_project_disciplined b w :
  disciplined called_process_exits
    [(build_cmd b, Some (root_dir b), false)]
    (build_project env b w).
Proof.
  unfold build_project.
  eapply (disciplined_bind _ []);
    [apply disciplined_attr|intros self [= <-]].
  cbn [attr res_self res_world]. unfold id.
  eapply (disciplined_bind _ []); [apply disciplined_print|intros _ _].
  eapply (disciplined_bind _ []); [apply disciplined_print|intros _ _].
  apply disciplined_try.
  eapply (disciplined_bind _ [_] []); [apply disciplined_spawn|intros _ _].
  apply disciplined_print.
Qed.

Lemma verify_build_quiet : emits quiet (verify_build env).
Proof. unfold verify_build. emits_auto. Qed.

Lemma verify_build_disciplined h b w :
  disciplined h [] (verify_build env b w).
Proof.
  apply disciplined_quiet; [apply verify_build_quiet|].
  apply verify_build_exits.
Qed.

(** The stages in order: the dependency stage, the generator, the build
    driver, the verification. *)
Lemma after_prerequisites_disciplined b w :
  disciplined called_process_exits (run_steps b)
              (after_prerequisites env b w).
Proof.
  unfold after_prerequisites, run_steps.
  eapply disciplined_bind; [apply build_dependencies_disciplined|intros _ _].
  rewrite (build_dependencies_keeps_self env b w).
  eapply (disciplined_bind _ [_] [_]);
    [apply configure_cmake_disciplined|intros _ _].
  rewrite (configure_cmake_keeps_self env b).
  eapply (disciplined_bind _ [_] []);
    [apply build_project_disciplined|intros _ _].
  rewrite (build_project_keeps_self env b).
  eapply (disciplined_bind _ [] []);
    [apply verify_build_disciplined|intros _ _].
  apply disciplined_quiet; [|discriminate].
  rewrite bind_eq. reflexivity.
Qed.

Lemma after_prerequisites_keeps_self : keeps_self (after_prerequisites env).
Proof.
  unfold after_prerequisites.
  apply keeps_bind; [apply build_dependencies_keeps_self|intros _].
  apply keeps_bind; [apply configure_cmake_keeps_self|intros _].
  apply keeps_bind; [apply build_project_keeps_self|intros _].
  apply keeps_bind; [apply verify_build_keeps_self|intros _].
  repeat keeps_step.
Qed.

End Stages.

(** ** When success is announced *)

Section Announce.
Context {W : Type} (env : Env W).













End Announce.

(** ** Runs that succeed *)


Lemma verify_build_normal_inv {W : Type} (env : Env W) b w a :
  res_outcome (verify_build env b w) = Normal a ->
  In (EExists (ofiq_lib_path b) true) (res_events (verify_build env b w)).
Proof.
  unfold verify_build. unfold_py. cbn.
  destruct (os_exists env (ofiq_lib_path b) w); cbn.
  - intros _. destruct (os_stat_size env (ofiq_lib_path b) w); cbn; auto.
    destruct (os_exists env (sample_app_path b) w); cbn; auto.
  - destruct (os_exists env (install_bin_dir b) w); cbn;
      [destruct (os_iterdir env (install_bin_dir b) w); cbn|];
      discriminate.
Qed.

Lemma in_events_bind_right {W A B} (m : M W A) (k : A -> M W B) b w a e :
  res_outcome (m b w) = Normal a ->
  In e (res_events (k a (res_self (m b w)) (res_world (m b w)))) ->
  In e (res_events (bind m k b w)).
Proof.
  rewrite bind_eq.
  destruct (m b w) as [[a'|c|x] b' w' evs]; cbn; try discriminate.
  intros [= ->] Hin. rewrite prepend_events. apply in_or_app. now right.
Qed.

Lemma after_prerequisites_normal_inv {W : Type} (env : Env W) b w a :
  res_outcome (after_prerequisites env b w) = Normal a ->
  In (EExists (ofiq_lib_path b) true)
     (res_events (after_prerequisites env b w)).
Proof.
  unfold after_prerequisites. intros H.
  apply bind_normal_inv in H as (a1 & b1 & w1 & evs1 & E1 & -> & H).
  pose proof (build_dependencies_keeps_self env b w) as K1.
  rewrite E1 in K1. cbn in K1. subst b1.
  rewrite prepend_events. apply in_or_app. right.
  apply bind_normal_inv in H as (a2 & b2 & w2 & evs2 & E2 & -> & H).
  pose proof (configure_cmake_keeps_self env b w1) as K2.
  rewrite E2 in K2. cbn in K2. subst b2.
  rewrite prepend_events. apply in_or_app. right.
  apply bind_normal_inv in H as (a3 & b3 & w3 & evs3 & E3 & -> & H).
  pose proof (build_project_keeps_self env b w2) as K3.
  rewrite E3 in K3. cbn in K3. subst b3.
  rewrite prepend_events. apply in_or_app. right.
  apply bind_normal_inv in H as (a4 & b4 & w4 & evs4 & E4 & _ & _).
  apply events_bind_incl.
  apply (verify_build_normal_inv env b w3 a4). now rewrite E4.
Qed.

(** After the prerequisite check the run goes through the subprocess calls
    of the dependency stage, the generator and the build driver in this
    order, with the builder unchanged: the calls made are an initial part
    of that list, nothing is started after a call that failed, a failed
    call ends the run ([sys.exit(1)] for a non-zero exit status, the
    exception itself otherwise), and a normal return means that every call
    of the list was made, none failed, and [ofiq_lib.dll] was seen at its
    place in the install directory. *)
Theorem stages_in_order {W : Type} (env : Env W) b w :
  let r := after_prerequisites env b w in
  res_self r = b
  /\ (exists k, calls (res_events r) = firstn k (run_steps b))
  /\ failure_is_last (res_events r) = true
  /\ (forall cmd cwd shell e,
        In (ESpawn cmd cwd shell (inl e)) (res_events r) ->
        res_outcome r = match e with
                        | CalledProcessError _ => SystemExit 1
                        | _ => Raised e
                        end)
  /\ match res_outcome r with
     | Normal _ =>
         calls (res_events r) = run_steps b
         /\ existsb spawn_failed (res_events r) = false
         /\ In (EExists (ofiq_lib_path b) true) (res_events r)
     | SystemExit c => c = 1
     | Raised _ => True
     end.
Proof.
  cbv zeta.
  destruct (after_prerequisites_disciplined env b w) as [Hp Hl Hn Hf He].
  split; [apply after_prerequisites_keeps_self|].
  split; [exact Hp|]. split; [exact Hl|]. split.
  - intros cmd cwd shell e Hin. rewrite (Hf _ _ _ _ Hin).
    now destruct e.
  - pose proof (after_prerequisites_normal_inv env b w) as Hlib.
    destruct (res_outcome (after_prerequisites env b w)) as [a|c|x];
      trivial.
    + destruct (Hn a eq_refl) as [Hc Hok]. repeat split; trivial.
      now apply (Hlib a).
    + now apply He.
Qed.

Lemma run_eq {W : Type} (env : Env W) cmdline b w :
  run env cmdline b w
  = prepend [ EPrint "OFIQ Python Build Script";
              EPrint (PyText.repeat_str "=" 50) ]
            (try_except (run_stages env cmdline) run_handlers b w).
Proof.
  unfold run.
  rewrite bind_eq. unfold print at 1. cbn [prepend app].
  rewrite bind_eq. unfold print at 1. cbn [prepend app].
  destruct (try_except (run_stages env cmdline) run_handlers b w).
  reflexivity.
Qed.



Lemma set_conan_path_frame p b :
  conan_path (set_conan_path p b) = Some p
  /\ use_conan (set_conan_path p b) = use_conan b
  /\ skip_deps (set_conan_path p b) = skip_deps b
  /\ root_dir (set_conan_path p b) = root_dir b.
Proof. now destruct b. Qed.




(** ** Where exceptions come from *)

Section Origins.
Context {W : Type} (env : Env W).

Lemma from_machine_bind {A B} (m : M W A) (k : A -> M W B) b w :
  from_machine env (m b w) ->
  (forall a, res_outcome (m b w) = Normal a ->
             from_machine env (k a (res_self (m b w)) (res_world (m b w)))) ->
  from_machine env (bind m k b w).
Proof.
  unfold from_machine. intros Hm Hk e. rewrite bind_eq.
  destruct (m b w) as [[a|c|x] b1 w1 evs1]; cbn in *.
  - rewrite prepend_outcome. now apply Hk.
  - discriminate.
  - intros [= <-]. now apply Hm.
Qed.

Lemma passes_bind {A B} (m : M W A) (k : A -> M W B) :
  passes_on env m -> (forall a, passes_on env (k a)) ->
  passes_on env (bind m k).
Proof.
  intros Hm Hk b w. apply from_machine_bind; [apply Hm|].
  intros a _. apply Hk.
Qed.

Lemma passes_try {A} (body : M W A) handler :
  passes_on env body ->
  (forall e h, handler e = Some h -> passes_on env h) ->
  passes_on env (try_except body handler).
Proof.
  intros Hm Hh b w e. unfold try_except. specialize (Hm b w).
  unfold from_machine in Hm.
  destruct (body b w) as [[a|c|x] b1 w1 evs1]; cbn in *;
    try discriminate.
  destruct (handler x) as [h|] eqn:E; cbn.
  - rewrite prepend_outcome. now apply (Hh _ _ E).
  - apply Hm.
Qed.

Lemma passes_ret {A} (a : A) : passes_on env (ret (W:=W) a).
Proof. intros b w e; discriminate. Qed.

Lemma passes_sys_exit {A} c : passes_on env (sys_exit (W:=W) (A:=A) c).
Proof. intros b w e; discriminate. Qed.

Lemma passes_attr {A} (f : OFIQBuilder -> A) : passes_on env (attr (W:=W) f).
Proof. intros b w e; discriminate. Qed.

Lemma passes_assign f : passes_on env (assign (W:=W) f).
Proof. intros b w e; discriminate. Qed.

Lemma passes_print line : passes_on env (print (W:=W) line).
Proof. intros b w e; discriminate. Qed.

Lemma passes_exists p : passes_on env (path_exists env p).
Proof. intros b w e; discriminate. Qed.

Lemma passes_spawn cmd cwd shell :
  passes_on env (subprocess_run env cmd cwd shell).
Proof.
  intros b w e. unfold subprocess_run.
  destruct (os_spawn env cmd cwd shell w) as [[x|out] w1] eqn:E; cbn;
    [|discriminate].
  intros [= ->]. left. exists cmd, cwd, shell, w. now rewrite E.
Qed.

Lemma passes_rmtree p : passes_on env (rmtree env p).
Proof.
  intros b w e. unfold rmtree.
  destruct (os_rmtree env p w) as [[x|] w1] eqn:E; cbn; [|discriminate].
  intros [= ->]. right. left. exists p, w. now rewrite E.
Qed.

Lemma passes_mkdir p : passes_on env (mkdir env p).
Proof.
  intros b w e. unfold mkdir.
  destruct (os_mkdir env p w) as [[x|] w1] eqn:E; cbn; [|discriminate].
  intros [= ->]. right. right. left. exists p, w. now rewrite E.
Qed.

Lemma passes_iterdir p : passes_on env (iterdir_names env p).
Proof.
  intros b w e. unfold iterdir_names. cbn.
  destruct (os_iterdir env p w) as [x|l] eqn:E; [|discriminate].
  intros [= ->]. do 3 right. left. now exists p, w.
Qed.

Lemma passes_stat p : passes_on env (stat_size env p).
Proof.
  intros b w e. unfold stat_size. cbn.
  destruct (os_stat_size env p w) as [x|l] eqn:E; [|discriminate].
  intros [= ->]. do 4 right. now exists p, w.
Qed.

End Origins.

Ltac passes_step :=
  lazymatch goal with
  | |- passes_on _ (bind _ _) => apply passes_bind; [|intro]
  | |- passes_on _ (try_except _ _) =>
      apply passes_try;
      [|let e := fresh "e" in let h := fresh "h" in let E := fresh "E" in
        intros e h E; destruct e; inversion E; subst; clear E]
  | |- passes_on _ (if ?c then _ else _) => destruct c
  | |- passes_on _ (let '(_, _) := ?c in _) => destruct c
  | |- passes_on _ (ret _) => apply passes_ret
  | |- passes_on _ (sys_exit _) => apply passes_sys_exit
  | |- passes_on _ (attr _) => apply passes_attr
  | |- passes_on _ (assign _) => apply passes_assign
  | |- passes_on _ (print _) => apply passes_print
  | |- passes_on _ (subprocess_run _ _ _ _) => apply passes_spawn
  | |- passes_on _ (path_exists _ _) => apply passes_exists
  | |- passes_on _ (rmtree _ _) => apply passes_rmtree
  | |- passes_on _ (mkdir _ _) => apply passes_mkdir
  | |- passes_on _ (iterdir_names _ _) => apply passes_iterdir
  | |- passes_on _ (stat_size _ _) => apply passes_stat
  end.

Section OriginsOfStages.
Context {W : Type} (env : Env W).

Lemma configure_builder_passes cmdline :
  passes_on env (configure_builder cmdline).
Proof.
  unfold configure_builder, parse_arguments, parser_parse_args,
    setup_environment.
  repeat passes_step.
Qed.

Lemma conan_fallback_loop_passes paths :
  passes_on env (conan_fallback_loop env paths).
Proof.
  induction paths as [|p rest IH]; cbn [conan_fallback_loop].
  - apply passes_ret.
  - unfold except_called_or_not_found. repeat passes_step; exact IH.
Qed.

Lemma check_tools_passes tools :
  forall acc, passes_on env (check_tools env tools acc).
Proof.
  induction tools as [|tool rest IH]; intros acc; cbn [check_tools].
  - apply passes_ret.
  - unfold except_called_or_not_found.
    apply passes_bind; [repeat passes_step|intro; apply IH].
Qed.

Lemma check_prerequisites_passes : passes_on env (check_prerequisites env).
Proof.
  unfold check_prerequisites, probe_tools, check_conan,
    except_called_or_not_found.
  pose proof (conan_fallback_loop_passes conan_paths) as Hloop.
  pose proof (check_tools_passes required_tools []) as Htools.
  repeat passes_step; trivial.
Qed.

Lemma build_from_source_passes : passes_on env (_build_from_source env).
Proof.
  unfold _build_from_source, source_trees_check, build_opencv,
    build_googletest, build_onnxruntime, except_called.
  repeat passes_step.
Qed.

Lemma build_with_conan_passes b w :
  conan_path b <> None -> from_machine env (_build_with_conan env b w).
Proof.
  intros Hc. unfold _build_with_conan.
  apply from_machine_bind; [apply passes_attr|intros self [= <-]].
  cbn [attr res_self res_world]. unfold id.
  apply from_machine_bind; [apply passes_exists|intros cached _].
  cbn [path_exists res_self res_world].
  apply from_machine_bind.
  { destruct cached; [|apply passes_ret].
    apply passes_bind; [apply passes_print|intro; apply passes_rmtree]. }
  intros _ _.
  match goal with
  | |- context [res_self (?m b w)] =>
      assert (Hk : keeps_self m) by (destruct cached; repeat keeps_step);
      rewrite (Hk b w); clear Hk
  end.
  apply from_machine_bind.
  { intros e. unfold attr_opt. destruct (conan_path b); [discriminate|].
    now destruct Hc. }
  intros conan _.
  match goal with
  | |- from_machine _ (?m ?b1 ?w1) =>
      assert (Hp : passes_on env m);
      [unfold except_called; repeat passes_step|apply Hp]
  end.
Qed.

Lemma build_dependencies_passes b w :
  attributes_ready b -> from_machine env (build_dependencies env b w).
Proof.
  intros [Hs Hc]. unfold build_dependencies.
  apply from_machine_bind.
  { intros e. unfold attr_opt. destruct (skip_deps b); [discriminate|].
    now destruct Hs. }
  intros skip _. 
  assert (Hb : res_self (attr_opt (W:=W) "skip_deps" skip_deps b w) = b)
    by apply keeps_attr_opt.
  rewrite Hb. destruct skip.
  - match goal with
    | |- from_machine _ (?m ?b1 ?w1) =>
        assert (Hp : passes_on env m); [repeat passes_step|apply Hp]
    end.
  - apply from_machine_bind; [apply passes_attr|intros conan [= <-]].
    cbn [attr res_self res_world].
    apply from_machine_bind; [apply passes_print|intros _ _].
    cbn [print res_self res_world].
    destruct (use_conan b).
    + apply build_with_conan_passes. now apply Hc.
    + apply build_from_source_passes.
Qed.

Lemma after_prerequisites_passes b w :
  attributes_ready b -> from_machine env (after_prerequisites env b w).
Proof.
  intros Hr. unfold after_prerequisites.
  apply from_machine_bind; [now apply build_dependencies_passes|].
  intros _ _.
  match goal with
  | |- from_machine _ (?m ?b1 ?w1) =>
      assert (Hp : passes_on env m); [|apply Hp]
  end.
  unfold configure_cmake, build_project, verify_build, except_called.
  repeat passes_step.
Qed.

Lemma check_prerequisites_ready b w a :
  skip_deps b <> None ->
  res_outcome (check_prerequisites env b w) = Normal a ->
  attributes_ready (res_self (check_prerequisites env b w)).
Proof.
  intros Hs Hn. destruct a.
  destruct (check_prerequisites_normal_inv env b w Hn) as [Hconan _].
  destruct (use_conan b) eqn:Hu.
  - destruct Hconan as (p & out & _ & -> & _).
    destruct (set_conan_path_frame p b) as (Hp & _ & Hsk & _).
    split; [now rewrite Hsk|]. intros _. now rewrite Hp.
  - rewrite Hconan. split; [exact Hs|]. intros H. congruence.
Qed.

Lemma run_stages_passes cmdline b w :
  from_machine env (run_stages env cmdline b w).
Proof.
  intros e. rewrite run_stages_split. revert e.
  apply from_machine_bind; [apply configure_builder_passes|].
  intros [] Hn.
  destruct (Args.valid cmdline) eqn:Hv.
  - destruct (configure_builder_result cmdline b w Hv)
      as (b1 & evs1 & E1 & _ & _ & Hsk & _).
    rewrite E1. cbn [res_self res_world].
    apply from_machine_bind; [apply check_prerequisites_passes|].
    intros a Ha. apply after_prerequisites_passes.
    apply (check_prerequisites_ready b1 w a); [|exact Ha].
    rewrite Hsk. discriminate.
  - rewrite (configure_builder_invalid cmdline b w Hv) in Hn.
    discriminate.
Qed.

End OriginsOfStages.

(** ** From the command line to the command lines *)

(** For an accepted command line, whatever the builder held before: the
    generator call names the Visual Studio generator, platform flag,
    install prefix, build type, architecture and toolset tag that belong
    to the options given; the build driver is called for the same build
    type; and the library is looked for under the install directory of
    that architecture and build type. *)
Theorem commands_of_command_line {W : Type} cmdline b (w : W) :
  Args.valid cmdline = true ->
  let b' := res_self (configure_builder cmdline b w) in
  let x86 := (Args.arch cmdline =? "x86")%string in
  let vs16 := Args.compiler cmdline =? 16 in
  let cfg := if Args.debug cmdline then "Debug" else "Release" in
  let inst := if x86 then "install_x86" else "install_x86_64" in
  configure_cmd b'
  = [ "cmake"; "-S"; "."; "-G";
      if vs16 then "Visual Studio 16 2019" else "Visual Studio 17 2022";
      if x86 then "-A Win32" else "-A x64";
      "-B"; build_dir b;
      "-DCMAKE_INSTALL_PREFIX=" ++ inst;
      "-DDOWNLOAD_ONNX=" ++ (if Args.no_conan cmdline then "ON" else "OFF");
      "-DUSE_CONAN=" ++ (if Args.no_conan cmdline then "OFF" else "ON");
      "-DOS=windows";
      "-DCMAKE_BUILD_TYPE=" ++ cfg;
      "-DARCHITECTURE=" ++ Args.arch cmdline;
      "-DDOWNLOAD_MODELS_AND_IMAGES="
        ++ (if Args.no_download cmdline then "OFF" else "ON");
      "-DVS_VERSION=" ++ (if vs16 then "vc16" else "vc17") ]
  /\ build_cmd b'
     = [ "cmake"; "--build"; build_dir b; "--config"; cfg;
         "--target"; "install"; "-j"; "8" ]
  /\ ofiq_lib_path b'
     = root_dir b </> inst </> cfg </> "bin" </> "ofiq_lib.dll".
Proof.
  intros Hv. cbv zeta. destruct b.
  unfold configure_builder, parse_arguments, parser_parse_args.
  rewrite Hv. destruct (valid_cases _ Hv) as [[Ha|Ha] [Hc|Hc]].
  all: run_pure; rewrite Ha, Hc; cbn.
  all: unfold configure_cmd, build_cmd, ofiq_lib_path, install_bin_dir; cbn.
  all: destruct (Args.debug cmdline), (Args.no_conan cmdline),
         (Args.no_download cmdline); repeat split.
Qed.

Lemma commands_of_command_line_witness :
  let cmdline := Args.mk "x86" 17 true true false false in
  let b := res_self (configure_builder cmdline Scenario.fresh tt) in
  Args.valid cmdline = true
  /\ build_cmd b
     = [ "cmake"; "--build"; "/ofiq/build/build_win"; "--config"; "Debug";
         "--target"; "install"; "-j"; "8" ]
  /\ ofiq_lib_path b = "/ofiq/install_x86/Debug/bin/ofiq_lib.dll".
Proof.
  cbv zeta. split; [reflexivity|].
  destruct (commands_of_command_line
              (Args.mk "x86" 17 true true false false) Scenario.fresh tt
              eq_refl) as (_ & Hb & Hl).
  split; [exact Hb|exact Hl].
Defined.

(** ** Runs that succeed, runs that raise *)


(** What [run] reports as a failed build is never an error of the script
    itself: an exception with which the stages end was raised by a
    subprocess or by [rmtree], [mkdir], [iterdir] or [stat] on the machine
    (printing and [exists] being taken as infallible); in particular the
    attributes [skip_deps] and [conan_path], which [__init__] does not
    create, are always there when they are read.  [run] then prints the
    report as its last line and ends with status 1. *)
Theorem run_reports_machine_errors
  {W : Type} (env : Env W) cmdline b w e :
  res_outcome (run_stages env cmdline b w) = Raised e ->
  machine_raises env e
  /\ res_outcome (run env cmdline b w) = SystemExit 1
  /\ last (res_events (run env cmdline b w)) (EPrint "")
     = EPrint match e with
              | KeyboardInterrupt =>
                  PyText.nl ++ PyText.nl ++ "Build interrupted by user"
              | _ =>
                  PyText.nl ++ PyText.nl ++ "Build failed with error: "
                  ++ exn_str e
              end.
Proof.
  intros H. split; [now apply (run_stages_passes env cmdline b w)|].
  rewrite run_outcome, H. split; [reflexivity|].
  rewrite run_eq, prepend_events. unfold try_except.
  destruct (run_stages env cmdline b w) as [o b1 w1 evs]. cbn in H.
  subst o.
  assert (Hl : forall (l : list event) x d, last (l ++ [x]) d = x).
  { intros l x d. induction l as [|y l IH]; [reflexivity|].
    cbn [app]. destruct (l ++ [x])%list eqn:E; [now destruct l|].
    exact IH. }
  destruct e; cbn -[last app]; rewrite ?app_nil_r, !app_assoc; apply Hl.
Qed.

Lemma run_reports_machine_errors_witness :
  let cmdline := Args.mk "x64" 16 false true false false in
  let e := FileNotFoundError "No such file or directory" in
  let r := run Scenario.windows_pc cmdline Scenario.fresh
               Scenario.trees_prebuilt_only in
  res_outcome (run_stages Scenario.windows_pc cmdline Scenario.fresh
                          Scenario.trees_prebuilt_only) = Raised e
  /\ res_outcome r = SystemExit 1
  /\ last (res_events r) (EPrint "")
     = EPrint (PyText.nl ++ PyText.nl ++ "Build failed with error: "
               ++ "No such file or directory").
Proof.
  cbv zeta. split; [reflexivity|].
  destruct (run_reports_machine_errors Scenario.windows_pc
              (Args.mk "x64" 16 false true false false) Scenario.fresh
              Scenario.trees_prebuilt_only
              (FileNotFoundError "No such file or directory") eq_refl)
    as (_ & Ho & Hl).
  split; [exact Ho|exact Hl].
Defined.

(** ** The prerequisite check *)

(** The search for the package manager: the search path is tried first
    and, if it answers, nothing else is looked at; a fallback location is
    probed only after it was seen to exist; nothing is probed after a
    probe that answered; a normal return leaves in [conan_path] the
    location that answered; the search ends the run (status 1) only when
    no probe answered and every fallback location was looked at. *)
Theorem conan_search_spec {W : Type} (env : Env W) b w :
  let r := check_conan env b w in
  success_is_last (res_events r) = true
  /\ (forall cmd cwd shell res,
        In (ESpawn cmd cwd shell res) (res_events r) ->
        cmd = ["conan"; "--version"]
        \/ exists p, In p conan_paths /\ cmd = [p; "--version"]
                     /\ In (EExists p true) (res_events r))
  /\ match res_outcome r with
     | Normal _ =>
         exists p out,
           (p = "conan" \/ In p conan_paths)
           /\ res_self r = set_conan_path p b
           /\ In (ESpawn [p; "--version"] None false (inr out))
                 (res_events r)
     | SystemExit c =>
         c = 1
         /\ existsb spawn_succeeded (res_events r) = false
         /\ (forall p, In p conan_paths ->
             exists res, In (EExists p res) (res_events r))
     | Raised e =>
         is_caught e = false
         /\ existsb spawn_succeeded (res_events r) = false
     end
  /\ (forall out, fst (os_spawn env ["conan"; "--version"] None false w)
                  = inr out ->
      calls (res_events r) = [probe "conan"]
      /\ forallb (fun e => match e with EExists _ _ => false | _ => true end)
                 (res_events r) = true
      /\ res_self r = set_conan_path "conan" b).
Proof. apply check_conan_inv. Qed.

(** How [check_prerequisites] ends: a normal return means that [cmake]
    answered and, under the package-manager strategy, that [conan_path]
    holds a location that answered (without that strategy the builder is
    unchanged); otherwise the status of the exit is 1, or the exception is
    one that a probe raised and that is neither [CalledProcessError] nor
    [FileNotFoundError]. *)
Theorem prerequisites_spec {W : Type} (env : Env W) b w :
  let r := check_prerequisites env b w in
  match res_outcome r with
  | Normal _ =>
      (if use_conan b
       then exists p out,
              (p = "conan" \/ In p conan_paths)
              /\ res_self r = set_conan_path p b
              /\ In (ESpawn [p; "--version"] None false (inr out))
                    (res_events r)
       else res_self r = b)
      /\ (exists out,
            In (ESpawn ["cmake"; "--version"] None false (inr out))
               (res_events r))
  | SystemExit c => c = 1
  | Raised e => machine_raises env e
  end.
Proof.
  cbv zeta.
  pose proof (check_prerequisites_normal_inv env b w) as Hn.
  pose proof (check_prerequisites_exits env b w) as Hx.
  pose proof (check_prerequisites_passes env b w) as Hr.
  cbv zeta in Hn. unfold from_machine in Hr.
  destruct (res_outcome (check_prerequisites env b w)) as [[]|c|x].
  - now apply Hn.
  - now apply Hx.
  - now apply Hr.
Qed.

(** ** What a run removes and creates *)


Section Footprint.
Context {W : Type} (env : Env W).









End Footprint.






